(** * Qualhook test-quality reporting scripts

    A shallow embedding of [scripts/generate_test_dashboard.py] and
    [scripts/visualize_test_trends.py].

    The scripts read JSON, so every datum is a dynamically typed Python
    value.  The first part embeds the fragment of Python the scripts use:
    values as parsed by [json.load], exceptions as an error result, numeric
    comparison and arithmetic on [int] and [float], subscripting, slicing,
    [dict.get], [str.replace], [sorted], [sum], [max] and the two format
    specifications [.1f] and [+.1f].  Modules [Dashboard] and [Trends] then
    follow the two source files function by function. *)

From Stdlib Require Import ZArith QArith Floats String Ascii List Lia.
From Stdlib Require Import DecimalString Sorted Permutation.
From stdpp Require Import gmap strings list.

Close Scope Q_scope.
Open Scope string_scope.
Open Scope Z_scope.
#[local] Set Warnings "-register-all,-inexact-float".

(** ** Python values and exceptions *)

(** What [json.load] can return.  A Python [str] is kept as its UTF-8
    encoding; a [dict] is a finite map on its keys. *)
Inductive value :=
| VNone
| VBool (b : bool)
| VInt (z : Z)
| VFloat (f : float)
| VStr (s : string)
| VList (l : list value)
| VDict (d : gmap string value).

(** The exception classes the two scripts can meet.  [OSError] stands for
    its subclasses [FileNotFoundError], [FileExistsError],
    [NotADirectoryError] and [IsADirectoryError]. *)
Inductive exn :=
| KeyError (key : string)
| TypeError
| AttributeError
| ValueError
| IndexError
| OverflowError
| ZeroDivisionError
| OSError
| UnicodeEncodeError
| JSONDecodeError
| ImportError
| SystemExit (code : Z).

Inductive result (A : Type) :=
| Ok (a : A)
| Raise (e : exn).
Arguments Ok {A} a.
Arguments Raise {A} e.

Definition rbind {A B} (r : result A) (k : A -> result B) : result B :=
  match r with
  | Ok a => k a
  | Raise e => Raise e
  end.

Declare Scope py_scope.
Delimit Scope py_scope with py.
Notation "x <- c1 ;; c2" := (rbind c1 (fun x => c2))
  (at level 100, c1 at next level, right associativity) : py_scope.
Open Scope py_scope.

(** A comprehension [[f(t) for t in l]]: left to right, stopping at the
    first exception. *)
Fixpoint mapM {A B} (f : A -> result B) (l : list A) : result (list B) :=
  match l with
  | [] => Ok []
  | a :: l' => b <- f a ;; bs <- mapM f l' ;; Ok (b :: bs)
  end.

(** ** Numbers

    A JSON number is a Python [int] (unbounded) or [float] (binary64).
    Python compares an [int] with a [float] by their exact values, and two
    floats as IEEE 754 does, which orders the finite ones by value too; so
    every comparison goes through the exact value of its operands. *)
Inductive xreal :=
| XNaN
| XInf (neg : bool)
| XFin (q : Q).

Definition dyadic (m e : Z) : Q :=
  if 0 <=? e then inject_Z (m * 2 ^ e) else Qmake m (2 ^ Z.to_pos (- e)).

Definition float_val (f : float) : xreal :=
  match Prim2SF f with
  | S754_zero _ => XFin (inject_Z 0)
  | S754_infinity s => XInf s
  | S754_nan => XNaN
  | S754_finite s m e => XFin (dyadic (if s then Z.neg m else Z.pos m) e)
  end.

(** [bool] is a subclass of [int]: [True] is 1 and [False] is 0. *)
Definition as_num (v : value) : option xreal :=
  match v with
  | VBool b => Some (XFin (inject_Z (if b then 1 else 0)))
  | VInt z => Some (XFin (inject_Z z))
  | VFloat f => Some (float_val f)
  | _ => None
  end.

Definition Qltb (p q : Q) : bool :=
  match Qcompare p q with Lt => true | _ => false end.
Definition Qeqb (p q : Q) : bool :=
  match Qcompare p q with Eq => true | _ => false end.

Definition xlt (a b : xreal) : bool :=
  match a, b with
  | XNaN, _ | _, XNaN => false
  | XInf n1, XInf n2 => n1 && negb n2
  | XInf n, XFin _ => n
  | XFin _, XInf n => negb n
  | XFin p, XFin q => Qltb p q
  end.

Definition xeq (a b : xreal) : bool :=
  match a, b with
  | XNaN, _ | _, XNaN => false
  | XInf n1, XInf n2 => Bool.eqb n1 n2
  | XFin p, XFin q => Qeqb p q
  | _, _ => false
  end.

Definition xle (a b : xreal) : bool := xlt a b || xeq a b.

(** The comparison operators.  Two strings or two lists can be ordered in
    Python; wherever the scripts compare two JSON values with each other
    ([sorted], [max]) they go on to compare one of them with an [int]
    literal, which raises the same [TypeError], so only numbers are ordered
    here. *)
Definition py_cmp (op : xreal -> xreal -> bool) (a b : value) : result bool :=
  match as_num a, as_num b with
  | Some x, Some y => Ok (op x y)
  | _, _ => Raise TypeError
  end.

Definition py_lt : value -> value -> result bool := py_cmp xlt.
Definition py_le : value -> value -> result bool := py_cmp xle.
Definition py_gt : value -> value -> result bool := py_cmp (fun x y => xlt y x).
Definition py_ge : value -> value -> result bool := py_cmp (fun x y => xle y x).

(** [a == b] never raises; the scripts only use it against the literal 0. *)
Definition py_eq_int (a : value) (k : Z) : bool :=
  match as_num a with
  | Some x => xeq x (XFin (inject_Z k))
  | None => false
  end.

(** Truth value testing: [None], [False], zero, and empty containers are
    false. *)
Definition truthy (v : value) : bool :=
  match v with
  | VNone => false
  | VBool b => b
  | VInt z => negb (z =? 0)
  | VFloat f => negb (xeq (float_val f) (XFin (inject_Z 0)))
  | VStr s => negb (String.eqb s "")
  | VList l => match l with [] => false | _ => true end
  | VDict d => negb (bool_decide (d = ∅))
  end.

(** ** Arithmetic *)

(** [float(z)]: the nearest binary64, ties to even; [OverflowError] when
    that is not finite. *)
Definition int_to_float (z : Z) : result float :=
  match binary_normalize prec emax z 0 false with
  | S754_infinity _ => Raise OverflowError
  | sf => Ok (SF2Prim sf)
  end.

(** [a / b] on two ints is the correctly rounded quotient.  The quotient is
    taken to at least 55 bits with a sticky bit below, so that the final
    rounding to 53 bits sees on which side of a tie the exact value lies. *)
Definition int_truediv (a b : Z) : result float :=
  if b =? 0 then Raise ZeroDivisionError
  else
    let neg := xorb (a <? 0) (b <? 0) in
    let a' := Z.abs a in
    let b' := Z.abs b in
    if a' =? 0 then Ok (if neg then (-0)%float else 0%float)
    else
      let s := 56 - (Z.log2 a' - Z.log2 b') in
      let num := if 0 <=? s then a' * 2 ^ s else a' in
      let den := if 0 <=? s then b' else b' * 2 ^ (- s) in
      let q := num / den in
      let sticky := if num mod den =? 0 then 0 else 1 in
      let m := 2 * q + sticky in
      match binary_normalize prec emax (if neg then - m else m) (- s - 1) false with
      | S754_infinity _ => Raise OverflowError
      | sf => Ok (SF2Prim sf)
      end.

(** The operands of an arithmetic operator, [bool] counting as [int]. *)
Inductive num :=
| NInt (z : Z)
| NFloat (f : float).

Definition to_num (v : value) : option num :=
  match v with
  | VBool b => Some (NInt (if b then 1 else 0))
  | VInt z => Some (NInt z)
  | VFloat f => Some (NFloat f)
  | _ => None
  end.

Definition num_to_float (n : num) : result float :=
  match n with
  | NInt z => int_to_float z
  | NFloat f => Ok f
  end.

(** [a + b] and [a - b] where the scripts use them: the left operand of
    [+] is the running total of [sum], a number, and no JSON value can be
    subtracted from another unless both are numbers. *)
Definition py_arith (iop : Z -> Z -> Z) (fop : float -> float -> float)
    (a b : value) : result value :=
  match to_num a, to_num b with
  | Some (NInt x), Some (NInt y) => Ok (VInt (iop x y))
  | Some x, Some y =>
      f <- num_to_float x ;; g <- num_to_float y ;; Ok (VFloat (fop f g))
  | _, _ => Raise TypeError
  end.

Definition py_add : value -> value -> result value := py_arith Z.add PrimFloat.add.
Definition py_sub : value -> value -> result value := py_arith Z.sub PrimFloat.sub.

(** [a / b], true division. *)
Definition py_truediv (a b : value) : result value :=
  match to_num a, to_num b with
  | Some (NInt x), Some (NInt y) => f <- int_truediv x y ;; Ok (VFloat f)
  | Some x, Some y =>
      f <- num_to_float x ;;
      g <- num_to_float y ;;
      if xeq (float_val g) (XFin (inject_Z 0)) then Raise ZeroDivisionError
      else Ok (VFloat (f / g)%float)
  | _, _ => Raise TypeError
  end.

(** [sum(f(t) for t in l)]: the generator is consumed one item at a time,
    each item added to the running total (which starts at the int 0) before
    the next one is produced.  Addition of floats is one rounded binary64
    addition per item. *)
Fixpoint py_sum_from {A} (f : A -> result value) (acc : value) (l : list A)
    : result value :=
  match l with
  | [] => Ok acc
  | t :: l' => x <- f t ;; acc' <- py_add acc x ;; py_sum_from f acc' l'
  end.

Definition py_sum {A} (f : A -> result value) (l : list A) : result value :=
  py_sum_from f (VInt 0) l.

(** [max(f(t) for t in l)]: the first item is the candidate; a later item
    replaces it when [item > candidate]. *)
Fixpoint py_max_from {A} (f : A -> result value) (cur : value) (l : list A)
    : result value :=
  match l with
  | [] => Ok cur
  | t :: l' =>
      x <- f t ;;
      b <- py_gt x cur ;;
      py_max_from f (if b then x else cur) l'
  end.

Definition py_max {A} (f : A -> result value) (l : list A) : result value :=
  match l with
  | [] => Raise ValueError
  | t :: l' => x <- f t ;; py_max_from f x l'
  end.

(** ** Strings

    [str] positions count code points.  In the UTF-8 encoding the bytes
    [10xxxxxx] continue the code point begun before them. *)
Definition is_continuation (c : ascii) : bool :=
  let n := N_of_ascii c in ((128 <=? n) && (n <? 192))%N.

(** The bytes of [s] as (continuation bytes at its front, code points after
    them). *)
Fixpoint chars_aux (s : string) : string * list string :=
  match s with
  | EmptyString => (EmptyString, [])
  | String c s' =>
      let '(k, cs) := chars_aux s' in
      if is_continuation c then (String c k, cs)
      else (EmptyString, String c k :: cs)
  end.

Definition py_chars (s : string) : list string :=
  let '(k, cs) := chars_aux s in
  match k with
  | EmptyString => cs
  | _ => k :: cs
  end.

Definition str_join (l : list string) : string := String.concat "" l.

(** [s.replace(old, new)] for a non-empty [old]: every occurrence, leftmost
    first, without overlap.  [skip] counts the bytes of a match still to be
    dropped. *)
Fixpoint replace_from (old new : string) (skip : nat) (s : string) : string :=
  match s with
  | EmptyString => EmptyString
  | String c s' =>
      match skip with
      | S k => replace_from old new k s'
      | O =>
          if String.prefix old s
          then new +:+ replace_from old new (String.length old - 1) s'
          else String c (replace_from old new 0 s')
      end
  end.

Definition str_replace (old new s : string) : string := replace_from old new 0 s.

(** The method call [v.replace(old, new)]; only [str] has the method. *)
Definition py_replace (v : value) (old new : string) : result string :=
  match v with
  | VStr s => Ok (str_replace old new s)
  | _ => Raise AttributeError
  end.

Definition string_of_Z (z : Z) : string := NilZero.string_of_int (Z.to_int z).

(** ** Containers *)

(** Where the slice bound [i] falls in a sequence of length [n]: a negative
    bound counts from the end, and both ends clamp. *)
Definition slice_bound (n : nat) (i : Z) : nat :=
  Z.to_nat (if i <? 0 then Z.max (i + Z.of_nat n) 0 else Z.min i (Z.of_nat n)).

(** [l[i:]] and [l[:j]]. *)
Definition slice_from {A} (i : Z) (l : list A) : list A :=
  skipn (slice_bound (length l) i) l.
Definition slice_to {A} (j : Z) (l : list A) : list A :=
  firstn (slice_bound (length l) j) l.

(** [v[i:]] and [v[:j]] on a value.  Lists and strings can be sliced; the
    other JSON values raise ([TypeError]; for a dict, [KeyError] from
    Python 3.12 on, where slices are hashable; recorded as [TypeError]). *)
Definition py_slice_from (i : Z) (v : value) : result value :=
  match v with
  | VList l => Ok (VList (slice_from i l))
  | VStr s => Ok (VStr (str_join (slice_from i (py_chars s))))
  | _ => Raise TypeError
  end.

Definition py_slice_to (j : Z) (v : value) : result value :=
  match v with
  | VList l => Ok (VList (slice_to j l))
  | VStr s => Ok (VStr (str_join (slice_to j (py_chars s))))
  | _ => Raise TypeError
  end.

(** [v[key]] for a string key. *)
Definition py_item (v : value) (key : string) : result value :=
  match v with
  | VDict d =>
      match d !! key with
      | Some x => Ok x
      | None => Raise (KeyError key)
      end
  | _ => Raise TypeError
  end.

(** [v.get(key, default)]; only [dict] has the method. *)
Definition py_get (v : value) (key : string) (default : value) : result value :=
  match v with
  | VDict d => Ok (match d !! key with Some x => x | None => default end)
  | _ => Raise AttributeError
  end.

(** [l[i]] for an int index. *)
Definition index {A} (l : list A) (i : Z) : result A :=
  let n := Z.of_nat (length l) in
  let j := if i <? 0 then i + n else i in
  if (j <? 0) || (n <=? j) then Raise IndexError
  else
    match nth_error l (Z.to_nat j) with
    | Some x => Ok x
    | None => Raise IndexError
    end.

Definition py_index (v : value) (i : Z) : result value :=
  match v with
  | VList l => index l i
  | VStr s => c <- index (py_chars s) i ;; Ok (VStr c)
  | VDict _ => Raise (KeyError (string_of_Z i))
  | _ => Raise TypeError
  end.

(** [len(v)]. *)
Definition py_len (v : value) : result Z :=
  match v with
  | VList l => Ok (Z.of_nat (length l))
  | VStr s => Ok (Z.of_nat (length (py_chars s)))
  | VDict d => Ok (Z.of_nat (size d))
  | _ => Raise TypeError
  end.

(** The items [for t in v] visits.  A dict yields its keys; their order is
    not kept by the map, and does not matter here: every loop of the
    scripts starts by subscripting [t] with a string or by calling [t.get],
    and a [str] supports neither. *)
Definition py_iter (v : value) : result (list value) :=
  match v with
  | VList l => Ok l
  | VStr s => Ok (VStr <$> py_chars s)
  | VDict d => Ok (VStr <$> (map_to_list d).*1)
  | _ => Raise TypeError
  end.

(** ** Formatting *)

(** [|m * 2^e| * 10^d] rounded to the nearest integer, ties to even: the
    digits of a finite float printed with [d] decimals. *)
Definition scaled_digits (d : nat) (m : positive) (e : Z) : Z :=
  let n := Z.pos m * 10 ^ Z.of_nat d in
  if 0 <=? e then n * 2 ^ e
  else
    let den := 2 ^ (- e) in
    let q := n / den in
    let r := n mod den in
    if 2 * r <? den then q
    else if den <? 2 * r then q + 1
    else if Z.even q then q else q + 1.

Fixpoint zeros (n : nat) : string :=
  match n with
  | O => ""
  | S k => "0" +:+ zeros k
  end.

Definition zero_pad (width : nat) (s : string) : string :=
  zeros (width - String.length s) +:+ s.

Definition fixed_digits (d : nat) (n : Z) : string :=
  string_of_Z (n / 10 ^ Z.of_nat d) +:+
  match d with
  | O => ""
  | _ => "." +:+ zero_pad d (string_of_Z (n mod 10 ^ Z.of_nat d))
  end.

Definition sign_text (plus neg : bool) : string :=
  if neg then "-" else if plus then "+" else "".

(** [format(f, '.df')], and [format(f, '+.df')] when [plus]. *)
Definition format_float (plus : bool) (d : nat) (f : float) : string :=
  match Prim2SF f with
  | S754_nan => sign_text plus false +:+ "nan"
  | S754_infinity s => sign_text plus s +:+ "inf"
  | S754_zero s => sign_text plus s +:+ fixed_digits d 0
  | S754_finite s m e => sign_text plus s +:+ fixed_digits d (scaled_digits d m e)
  end.

(** The format specification on a value: an [int] (or [bool]) is converted
    to [float] first; a [str] rejects the code [f] with [ValueError]; the
    remaining types reject any non-empty specification with [TypeError]. *)
Definition py_format_f (plus : bool) (d : nat) (v : value) : result string :=
  match v with
  | VStr _ => Raise ValueError
  | _ =>
      match to_num v with
      | Some n => f <- num_to_float n ;; Ok (format_float plus d f)
      | None => Raise TypeError
      end
  end.

(** What the interpreter and its libraries supply and the scripts only
    call: the text of [str(v)] for a float, list or dict; the JSON parser
    ([None] for text that is not JSON); and whether the platform's default
    text encoding, the one [open(p, 'w')] writes with, can encode a text. *)
Class Runtime := {
  py_repr : value -> string;
  json_loads : string -> option value;
  encodable : string -> bool
}.

(** What UTF-8 can encode: every text without a surrogate code point.  In
    the generalised UTF-8 kept here a surrogate is the byte 237 followed by
    a byte from 160 up. *)
Fixpoint utf8_encodable (s : string) : bool :=
  match s with
  | String c1 ((String c2 _) as s') =>
      negb ((N_of_ascii c1 =? 237)%N && (160 <=? N_of_ascii c2)%N) &&
      utf8_encodable s'
  | _ => true
  end.

(** [str(v)], the text an f-string puts for [{v}]. *)
Definition py_str `{Runtime} (v : value) : string :=
  match v with
  | VNone => "None"
  | VBool b => if b then "True" else "False"
  | VInt z => string_of_Z z
  | VStr s => s
  | _ => py_repr v
  end.

(** [sorted(items, key=key, reverse=True)].  The keys are computed first,
    one per item, then only compared with [<].  The sort is stable, also in
    reverse: items with equal keys keep their order.  Inserting the items
    from the last to the first, each in front of the first item whose key is
    not greater, gives that order whenever the keys are totally ordered;
    the merge strategy of CPython's own sort is not reproduced. *)
Fixpoint insert_desc {A} (kx : value) (x : A) (l : list (value * A))
    : result (list (value * A)) :=
  match l with
  | [] => Ok [(kx, x)]
  | (ky, y) :: l' =>
      b <- py_lt kx ky ;;
      if b then r <- insert_desc kx x l' ;; Ok ((ky, y) :: r)
      else Ok ((kx, x) :: l)
  end.

Fixpoint sort_desc {A} (l : list (value * A)) : result (list (value * A)) :=
  match l with
  | [] => Ok []
  | (kx, x) :: l' => r <- sort_desc l' ;; insert_desc kx x r
  end.

Definition py_sorted_desc {A} (key : A -> result value) (items : list A)
    : result (list A) :=
  keys <- mapM key items ;;
  r <- sort_desc (combine keys items) ;;
  Ok (map snd r).

(** ** The world: file system, standard output, clock

    A path is its list of components, as [pathlib] normalises it: empty
    and [.] components dropped, a leading [/] kept as the first component.
    Directories and regular files are two tables; the working directory
    [[]] and the root always exist.  A regular file holds text: files whose
    bytes the platform cannot decode are not modelled, nor are permissions,
    links and [..]. *)
Definition path := list string.

Fixpoint split_on (sep : ascii) (s : string) : list string :=
  match s with
  | EmptyString => [EmptyString]
  | String c s' =>
      if Ascii.eqb c sep then EmptyString :: split_on sep s'
      else
        match split_on sep s' with
        | [] => [String c EmptyString]
        | p :: ps => String c p :: ps
        end
  end.

Definition path_of (s : string) : path :=
  ((if String.prefix "/" s then ["/"] else []) ++
   List.filter (fun p => negb (String.eqb p "") && negb (String.eqb p "."))
     (split_on "/" s))%list.

(** [os.path.join(a, b)] for a relative [b]. *)
Definition path_join (a b : string) : string :=
  if String.eqb a "" then b
  else if String.eqb (substring (String.length a - 1) 1 a) "/" then a +:+ b
  else a +:+ "/" +:+ b.

Record world := {
  w_dirs : gset path;
  w_files : gmap path string;
  w_stdout : list string;
  w_now : string
}.

Definition dir_exists (w : world) (p : path) : bool :=
  bool_decide (p = []) || bool_decide (p = ["/"]) || bool_decide (p ∈ w_dirs w).

(** Every non-empty prefix of a path: the path and its parents. *)
Fixpoint prefixes (p : path) : list path :=
  match p with
  | [] => []
  | c :: p' => [c] :: map (cons c) (prefixes p')
  end.

(** A computation that may print, touch files and raise. *)
Definition M (A : Type) : Type := world -> result A * world.

Definition mret {A} (a : A) : M A := fun w => (Ok a, w).
Definition mbind {A B} (c : M A) (k : A -> M B) : M B :=
  fun w =>
    match c w with
    | (Ok a, w') => k a w'
    | (Raise e, w') => (Raise e, w')
    end.
Definition lift {A} (r : result A) : M A := fun w => (r, w).
Definition raise {A} (e : exn) : M A := lift (Raise e).

Notation "x <~ c1 ;; c2" := (mbind c1 (fun x => c2))
  (at level 100, c1 at next level, right associativity) : py_scope.

(** [try: body  except cls: handler], where [catches] recognises [cls]. *)
Definition try_except {A} (body : M A) (catches : exn -> bool) (handler : M A)
    : M A :=
  fun w =>
    match body w with
    | (Raise e, w') => if catches e then handler w' else (Raise e, w')
    | r => r
    end.

(** [print(s)]. *)
Definition print (s : string) : M unit :=
  fun w =>
    (Ok tt, {| w_dirs := w_dirs w; w_files := w_files w;
               w_stdout := (w_stdout w ++ [s])%list; w_now := w_now w |}).

(** [datetime.now().strftime('%Y-%m-%d %H:%M:%S')]. *)
Definition now_text : M string := fun w => (Ok (w_now w), w).

(** Whether a regular file stands at a path. *)
Definition file_exists (w : world) (p : path) : bool :=
  match w_files w !! p with
  | Some _ => true
  | None => false
  end.

(** [Path(p).mkdir(parents=True, exist_ok=True)]: the directory is made,
    with the directories above it that are missing; one that exists is left
    alone.  Where a regular file stands at the path or above it, [os.mkdir]
    fails ([FileExistsError], [NotADirectoryError]) before anything is
    made, and the call raises. *)
Definition mkdir_parents (p : string) : M unit :=
  fun w =>
    if existsb (file_exists w) (prefixes (path_of p))
    then (Raise OSError, w)
    else (Ok tt, {| w_dirs := w_dirs w ∪ list_to_set (prefixes (path_of p));
                    w_files := w_files w; w_stdout := w_stdout w;
                    w_now := w_now w |}).

(** [open(p, 'r')] and reading the whole file. *)
Definition read_text (p : string) : M string :=
  fun w =>
    match w_files w !! path_of p with
    | Some s => (Ok s, w)
    | None => (Raise OSError, w)
    end.

(** The world with [s] as the content of the file at [p]. *)
Definition store (p : path) (s : string) (w : world) : world :=
  {| w_dirs := w_dirs w;
     w_files := <[p := s]> (w_files w);
     w_stdout := w_stdout w; w_now := w_now w |}.

(** Whether [open(p, 'w')] or [open(p, 'wb')] is refused: the directory of
    [p] must exist and [p] must not be a directory. *)
Definition open_refused (w : world) (p : path) : bool :=
  dir_exists w p || negb (dir_exists w (removelast p)).

(** [with open(p, 'w') as f: f.write(s)].  [open] creates the file or
    empties the one that is there.  [f.write] then encodes the text in the
    platform's encoding: text it cannot encode raises [UnicodeEncodeError],
    and the file stays empty. *)
Definition write_text `{Runtime} (p s : string) : M unit :=
  fun w =>
    if open_refused w (path_of p) then (Raise OSError, w)
    else if encodable s then (Ok tt, store (path_of p) s w)
    else (Raise UnicodeEncodeError, store (path_of p) "" w).

(** [plt.savefig(p)]: the image is written as bytes, which need no
    encoding. *)
Definition write_bytes (p s : string) : M unit :=
  fun w =>
    if open_refused w (path_of p) then (Raise OSError, w)
    else (Ok tt, store (path_of p) s w).

(** [with open(p, 'r') as f: json.load(f)]. *)
Definition json_load `{Runtime} (p : string) : M value :=
  s <~ read_text p ;;
  match json_loads s with
  | Some v => mret v
  | None => raise JSONDecodeError
  end.

Definition nl : string := String (ascii_of_nat 10) EmptyString.
Definition dq : string := String (ascii_of_nat 34) EmptyString.

(** * [scripts/generate_test_dashboard.py] *)
Module Dashboard.

Definition repo_prefix : string := "github.com/bebsworthy/qualhook/".

(** [get_score_color(score)] *)
Definition get_score_color (score : value) : result string :=
  b80 <- py_ge score (VInt 80) ;;
  if b80 then Ok "#4caf50"
  else
    b60 <- py_ge score (VInt 60) ;;
    if b60 then Ok "#ff9800" else Ok "#f44336".

(** [get_flaky_class(count)] *)
Definition get_flaky_class (count : value) : result string :=
  if py_eq_int count 0 then Ok "success"
  else
    b <- py_le count (VInt 2) ;;
    if b then Ok "warning" else Ok "error".

(** Lines 29 to 31 of [generate_dashboard]: the three comprehensions over
    [trends[-10:]]. *)
Definition last_points (trends : value) : result (list value) :=
  w <- py_slice_from (-10) trends ;; py_iter w.

Definition trend_label (t : value) : result value :=
  ts <- py_item t "timestamp" ;; py_slice_to 10 ts.

Record chart_data := {
  trend_labels : list value;
  coverage_trend : list value;
  quality_trend : list value
}.

Definition trend_chart_data (trends : value) : result chart_data :=
  pts <- last_points trends ;;
  labels <- mapM trend_label pts ;;
  pts <- last_points trends ;;
  cov <- mapM (fun t => py_get t "coverage" (VInt 0)) pts ;;
  pts <- last_points trends ;;
  qual <- mapM (fun t => py_get t "quality_score" (VInt 0)) pts ;;
  Ok {| trend_labels := labels; coverage_trend := cov; quality_trend := qual |}.

Section Rendering.
Context `{Runtime}.

(** The loop of [generate_package_rows] runs over
    [sorted(packages, key=lambda x: x['coverage'], reverse=True)[:10]]. *)
Definition top_packages (packages : value) : result (list value) :=
  items <- py_iter packages ;;
  sorted <- py_sorted_desc (fun x => py_item x "coverage") items ;;
  Ok (slice_to 10 sorted).

(** One turn of that loop: the row appended for [pkg]. *)
Definition package_row (pkg : value) : result string :=
  coverage <- py_item pkg "coverage" ;;
  color <- get_score_color coverage ;;
  err <- py_get pkg "error" VNone ;;
  let error_indicator := if truthy err then " ⚠️" else "" in
  name <- py_item pkg "package" ;;
  shown <- py_replace name repo_prefix "" ;;
  cov_text <- py_format_f false 1 coverage ;;
  files <- py_item pkg "test_files" ;;
  Ok (nl +:+ "            <tr>" +:+ nl +:+
      "                <td>" +:+ shown +:+ "</td>" +:+ nl +:+
      "                <td style=" +:+ dq +:+ "color: " +:+ color +:+ dq +:+ ">" +:+
        cov_text +:+ "%" +:+ error_indicator +:+ "</td>" +:+ nl +:+
      "                <td>" +:+ py_str files +:+ "</td>" +:+ nl +:+
      "            </tr>" +:+ nl +:+
      "        ").

(** [generate_package_rows(packages)] *)
Definition generate_package_rows (packages : value) : result string :=
  top <- top_packages packages ;;
  rows <- mapM package_row top ;;
  Ok (str_join rows).

Definition test_type_row (name : string) (count : value) : string :=
  nl +:+ "            <tr>" +:+ nl +:+
  "                <td>" +:+ name +:+ "</td>" +:+ nl +:+
  "                <td>" +:+ py_str count +:+ "</td>" +:+ nl +:+
  "            </tr>" +:+ nl +:+
  "        ".

(** [generate_test_type_rows(test_types)] *)
Definition generate_test_type_rows (test_types : value) : result string :=
  unit_files <- py_item test_types "unit_test_files" ;;
  integration_files <- py_item test_types "integration_test_files" ;;
  e2e_files <- py_item test_types "e2e_test_files" ;;
  benchmark_files <- py_item test_types "benchmark_files" ;;
  example_files <- py_item test_types "example_files" ;;
  let types := [("Unit Tests", unit_files);
                ("Integration Tests", integration_files);
                ("E2E Tests", e2e_files);
                ("Benchmarks", benchmark_files);
                ("Examples", example_files)] in
  Ok (str_join (map (fun '(name, count) => test_type_row name count) types)).

Definition table_open (title : string) (columns : list string) : string :=
  nl +:+ "        <div class=" +:+ dq +:+ "details" +:+ dq +:+ ">" +:+ nl +:+
  "            <h3>" +:+ title +:+ "</h3>" +:+ nl +:+
  "            <table>" +:+ nl +:+
  "                <thead>" +:+ nl +:+
  "                    <tr>" +:+ nl +:+
  str_join (map (fun c => "                        <th>" +:+ c +:+ "</th>" +:+ nl)
                columns) +:+
  "                    </tr>" +:+ nl +:+
  "                </thead>" +:+ nl +:+
  "                <tbody>" +:+ nl +:+
  "                    ".

Definition table_close : string :=
  nl +:+ "                </tbody>" +:+ nl +:+
  "            </table>" +:+ nl +:+
  "        </div>" +:+ nl +:+
  "    ".

Definition flaky_test_row (test : value) : result string :=
  name <- py_item test "test" ;;
  pkg <- py_item test "package" ;;
  shown <- py_replace pkg repo_prefix "" ;;
  Ok (nl +:+ "            <tr>" +:+ nl +:+
      "                <td>" +:+ py_str name +:+ "</td>" +:+ nl +:+
      "                <td>" +:+ shown +:+ "</td>" +:+ nl +:+
      "            </tr>" +:+ nl +:+
      "        ").

(** [generate_flaky_tests_section(flakiness)] *)
Definition generate_flaky_tests_section (flakiness : value) : result string :=
  count <- py_item flakiness "flaky_test_count" ;;
  if py_eq_int count 0 then Ok ""
  else
    tests <- py_item flakiness "flaky_tests" ;;
    first <- py_slice_to 10 tests ;;
    items <- py_iter first ;;
    rows <- mapM flaky_test_row items ;;
    Ok (table_open "Flaky Tests" ["Test"; "Package"] +:+ str_join rows +:+
        table_close).

(** Line 362: ['#f44336' if duration > 1.0 else '#ff9800' if duration > 0.5
    else '#4caf50']. *)
Definition duration_color (duration : value) : result string :=
  slow <- py_gt duration (VFloat 1) ;;
  if slow then Ok "#f44336"
  else
    medium <- py_gt duration (VFloat 0.5) ;;
    Ok (if medium then "#ff9800" else "#4caf50").

Definition slow_test_row (test : value) : result string :=
  duration <- py_item test "duration" ;;
  color <- duration_color duration ;;
  name <- py_item test "name" ;;
  pkg <- py_item test "package" ;;
  shown <- py_replace pkg repo_prefix "" ;;
  dur_text <- py_format_f false 3 duration ;;
  Ok (nl +:+ "            <tr>" +:+ nl +:+
      "                <td>" +:+ py_str name +:+ "</td>" +:+ nl +:+
      "                <td>" +:+ shown +:+ "</td>" +:+ nl +:+
      "                <td style=" +:+ dq +:+ "color: " +:+ color +:+ dq +:+ ">" +:+
        dur_text +:+ "s</td>" +:+ nl +:+
      "            </tr>" +:+ nl +:+
      "        ").

(** [generate_slow_tests_section(execution_time)] *)
Definition generate_slow_tests_section (execution_time : value) : result string :=
  slowest <- py_get execution_time "slowest_tests" (VList []) ;;
  if negb (truthy slowest) then Ok ""
  else
    first <- py_slice_to 10 slowest ;;
    items <- py_iter first ;;
    rows <- mapM slow_test_row items ;;
    Ok (table_open "Slowest Tests" ["Test"; "Package"; "Duration"] +:+
        str_join rows +:+ table_close).

(** What [generate_dashboard] interpolates into its page, in the order the
    f-string evaluates it. *)
Record page := {
  quality_color : string;
  coverage_color : string;
  quality_text : string;
  coverage_text : string;
  test_count_text : string;
  flaky_class : string;
  flaky_count_text : string;
  package_rows : string;
  test_type_rows : string;
  flaky_section : string;
  slow_section : string;
  generated_at : string;
  charts : chart_data
}.

(** [metrics['metrics'][group]] and [metrics['metrics'][group][field]] *)
Definition metric_group (metrics : value) (group : string) : result value :=
  m <- py_item metrics "metrics" ;;
  py_item m group.

Definition metric (metrics : value) (group field : string) : result value :=
  g <- metric_group metrics group ;;
  py_item g field.

(** The body of [generate_dashboard] between loading the two files and
    writing the page. *)
Definition dashboard_page (metrics trends : value) (now : string) : result page :=
  coverage <- metric metrics "coverage" "average" ;;
  quality_score <- metric metrics "quality_score" "overall" ;;
  test_count <- metric metrics "test_types" "total_test_files" ;;
  flaky_count <- metric metrics "flakiness" "flaky_test_count" ;;
  chart <- trend_chart_data trends ;;
  qcolor <- get_score_color quality_score ;;
  ccolor <- get_score_color coverage ;;
  qtext <- py_format_f false 1 quality_score ;;
  ctext <- py_format_f false 1 coverage ;;
  fclass <- get_flaky_class flaky_count ;;
  by_package <- metric metrics "coverage" "by_package" ;;
  prows <- generate_package_rows by_package ;;
  test_types <- metric_group metrics "test_types" ;;
  trows <- generate_test_type_rows test_types ;;
  flakiness <- metric_group metrics "flakiness" ;;
  fsection <- generate_flaky_tests_section flakiness ;;
  execution_time <- metric_group metrics "execution_time" ;;
  ssection <- generate_slow_tests_section execution_time ;;
  Ok {| quality_color := qcolor; coverage_color := ccolor;
        quality_text := qtext; coverage_text := ctext;
        test_count_text := py_str test_count;
        flaky_class := fclass; flaky_count_text := py_str flaky_count;
        package_rows := prows; test_type_rows := trows;
        flaky_section := fsection; slow_section := ssection;
        generated_at := now; charts := chart |}.

(** The fixed markup of the page around those holes, with [json.dumps] of
    the three chart lists. *)
Variable page_text : page -> string.

(** [generate_dashboard(metrics_file, trend_file, output_file)] *)
Definition generate_dashboard (metrics_file trend_file output_file : string)
    : M unit :=
  metrics <~ json_load metrics_file ;;
  trends <~ json_load trend_file ;;
  now <~ now_text ;;
  html <~ lift (dashboard_page metrics trends now) ;;
  _ <~ write_text output_file (page_text html) ;;
  print ("Dashboard generated: " +:+ output_file).

(** The script run as [__main__] with [sys.argv = argv]. *)
Definition main (argv : list string) : M unit :=
  match argv with
  | [_; metrics_file; trend_file; output_file] =>
      generate_dashboard metrics_file trend_file output_file
  | _ =>
      _ <~ print "Usage: generate_test_dashboard.py <metrics_json> <trend_json> <output_html>" ;;
      raise (SystemExit 1)
  end.

End Rendering.
End Dashboard.

(** * [scripts/visualize_test_trends.py] *)
Module Trends.

(** Lines 101 to 109 of [generate_summary_stats]. *)
Record stats := {
  avg_coverage : value;
  avg_quality : value;
  max_flaky : value;
  coverage_trend : value;
  quality_trend : value
}.

Definition field (name : string) (t : value) : result value :=
  py_get t name (VInt 0).

(** [trends[-1].get(name, 0)] and [trends[-2].get(name, 0)] *)
Definition field_at (trends : value) (i : Z) (name : string) : result value :=
  t <- py_index trends i ;; field name t.

Definition summary_stats (trends : value) : result stats :=
  recent <- py_slice_from (-7) trends ;;
  items <- py_iter recent ;;
  total <- py_sum (field "coverage") items ;;
  n <- py_len recent ;;
  avg_cov <- py_truediv total (VInt n) ;;
  items <- py_iter recent ;;
  total <- py_sum (field "quality_score") items ;;
  n <- py_len recent ;;
  avg_qual <- py_truediv total (VInt n) ;;
  items <- py_iter recent ;;
  flaky <- py_max (field "flaky_count") items ;;
  last <- field_at trends (-1) "coverage" ;;
  prev <- field_at trends (-2) "coverage" ;;
  cov_trend <- py_sub last prev ;;
  last <- field_at trends (-1) "quality_score" ;;
  prev <- field_at trends (-2) "quality_score" ;;
  qual_trend <- py_sub last prev ;;
  Ok {| avg_coverage := avg_cov; avg_quality := avg_qual; max_flaky := flaky;
        coverage_trend := cov_trend; quality_trend := qual_trend |}.

Section Script.
Context `{Runtime}.

(** The f-string of lines 112 to 131. *)
Definition summary_header (now : string) (s : stats) (trends : value)
    : result string :=
  avg_cov <- py_format_f false 1 (avg_coverage s) ;;
  avg_qual <- py_format_f false 1 (avg_quality s) ;;
  cov_trend <- py_format_f true 1 (coverage_trend s) ;;
  qual_trend <- py_format_f true 1 (quality_trend s) ;;
  latest_cov <- field_at trends (-1) "coverage" ;;
  latest_cov <- py_format_f false 1 latest_cov ;;
  latest_qual <- field_at trends (-1) "quality_score" ;;
  latest_qual <- py_format_f false 1 latest_qual ;;
  latest_flaky <- field_at trends (-1) "flaky_count" ;;
  Ok ("# Test Quality Summary Report" +:+ nl +:+
      nl +:+
      "Generated: " +:+ now +:+ nl +:+
      nl +:+
      "## 7-Day Averages" +:+ nl +:+
      "- **Average Coverage**: " +:+ avg_cov +:+ "%" +:+ nl +:+
      "- **Average Quality Score**: " +:+ avg_qual +:+ "/100" +:+ nl +:+
      "- **Maximum Flaky Tests**: " +:+ py_str (max_flaky s) +:+ nl +:+
      nl +:+
      "## Recent Trends" +:+ nl +:+
      "- **Coverage Change**: " +:+ cov_trend +:+ "%" +:+ nl +:+
      "- **Quality Score Change**: " +:+ qual_trend +:+ nl +:+
      nl +:+
      "## Current Status" +:+ nl +:+
      "- **Latest Coverage**: " +:+ latest_cov +:+ "%" +:+ nl +:+
      "- **Latest Quality Score**: " +:+ latest_qual +:+ "/100" +:+ nl +:+
      "- **Latest Flaky Tests**: " +:+ py_str latest_flaky +:+ nl +:+
      nl +:+
      "## Recommendations" +:+ nl).

Definition low_coverage_line : string :=
  "- ⚠️ Coverage is below recommended threshold (70%)" +:+ nl.
Definition low_quality_line : string :=
  "- ⚠️ Quality score is below recommended threshold (60)" +:+ nl.
Definition fix_flaky_line (n : value) : string :=
  "- ⚠️ Fix " +:+ py_str n +:+ " flaky tests" +:+ nl.
Definition coverage_decline_line : string :=
  "- 📉 Coverage is declining rapidly" +:+ nl.
Definition quality_decline_line : string :=
  "- 📉 Quality score is declining rapidly" +:+ nl.

(** [if cond: summary += line] *)
Definition when (cond : bool) (line : string) : list string :=
  if cond then [line] else [].

(** Lines 133 to 146: the lines appended to the summary, in order. *)
Definition recommendations (s : stats) : result (list string) :=
  low_cov <- py_lt (avg_coverage s) (VInt 70) ;;
  low_qual <- py_lt (avg_quality s) (VInt 60) ;;
  any_flaky <- py_gt (max_flaky s) (VInt 0) ;;
  cov_drop <- py_lt (coverage_trend s) (VInt (-5)) ;;
  qual_drop <- py_lt (quality_trend s) (VInt (-10)) ;;
  Ok (when low_cov low_coverage_line ++
      when low_qual low_quality_line ++
      when any_flaky (fix_flaky_line (max_flaky s)) ++
      when cov_drop coverage_decline_line ++
      when qual_drop quality_decline_line)%list.

(** The text of the summary for a history of at least two points. *)
Definition summary_text (now : string) (trends : value) : result string :=
  s <- summary_stats trends ;;
  header <- summary_header now s trends ;;
  lines <- recommendations s ;;
  Ok (header +:+ str_join lines).

Definition summary_file (output_dir : string) : string :=
  path_join output_dir "test_quality_summary.md".

(** [generate_summary_stats(trends, output_dir)] *)
Definition generate_summary_stats (trends : value) (output_dir : string) : M unit :=
  n <~ lift (py_len trends) ;;
  if n <? 2 then mret tt
  else
    now <~ now_text ;;
    summary <~ lift (summary_text now trends) ;;
    _ <~ write_text (summary_file output_dir) summary ;;
    print ("Summary report saved to: " +:+ summary_file output_dir).

(** [datetime] values, and [datetime.fromisoformat] ([None] for a string it
    rejects with [ValueError]). *)
Variable datetime : Type.
Variable fromisoformat : string -> option datetime.

(** The data handed to the four panels. *)
Record figure := {
  timestamps : list datetime;
  coverage : list value;
  quality_scores : list value;
  test_counts : list value;
  flaky_counts : list value
}.

(** What [plt.savefig] writes for a figure.  The plotting calls of lines 36
    to 84 build the figure from these five lists and constants; they are
    taken to succeed. *)
Variable figure_image : figure -> string.

Definition parse_timestamp (t : value) : result datetime :=
  ts <- py_item t "timestamp" ;;
  iso <- py_replace ts "Z" "+00:00" ;;
  match fromisoformat iso with
  | Some d => Ok d
  | None => Raise ValueError
  end.

(** Lines 29 to 33 of [visualize_trends]. *)
Definition extract_data (trends : value) : result figure :=
  items <- py_iter trends ;;
  ts <- mapM parse_timestamp items ;;
  items <- py_iter trends ;;
  cov <- mapM (field "coverage") items ;;
  items <- py_iter trends ;;
  qual <- mapM (field "quality_score") items ;;
  items <- py_iter trends ;;
  counts <- mapM (field "test_count") items ;;
  items <- py_iter trends ;;
  flaky <- mapM (field "flaky_count") items ;;
  Ok {| timestamps := ts; coverage := cov; quality_scores := qual;
        test_counts := counts; flaky_counts := flaky |}.

Definition image_file (output_dir : string) : string :=
  path_join output_dir "test_quality_trends.png".

(** [visualize_trends(trend_file, output_dir)] *)
Definition visualize_trends (trend_file output_dir : string) : M unit :=
  _ <~ mkdir_parents output_dir ;;
  trends <~ json_load trend_file ;;
  if negb (truthy trends) then print "No trend data available"
  else
    fig <~ lift (extract_data trends) ;;
    _ <~ write_bytes (image_file output_dir) (figure_image fig) ;;
    _ <~ print ("Trend visualization saved to: " +:+ image_file output_dir) ;;
    generate_summary_stats trends output_dir.

Definition is_ImportError (e : exn) : bool :=
  match e with
  | ImportError => true
  | _ => false
  end.

(** The block under [if __name__ == '__main__'], lines 155 to 175. *)
Definition main (argv : list string) : M unit :=
  match argv with
  | _ :: trend_file :: rest =>
      let output_dir :=
        match rest with
        | dir :: _ => dir
        | [] => "test_metrics/visualizations"
        end in
      try_except (visualize_trends trend_file output_dir) is_ImportError
        (_ <~ print "Warning: matplotlib not installed. Install with: pip install matplotlib" ;;
         _ <~ print "Generating text summary only..." ;;
         trends <~ json_load trend_file ;;
         if truthy trends then generate_summary_stats trends output_dir
         else mret tt)
  | _ =>
      _ <~ print "Usage: visualize_test_trends.py <trend_file> [output_dir]" ;;
      raise (SystemExit 1)
  end.

(** Running the file as a script.  The module body executes top to bottom:
    the imports of lines 6 to 12 first, among them [matplotlib.pyplot] and
    [matplotlib.dates], then the function definitions, then the [__main__]
    block.  An import of a module that is not installed raises
    [ImportError] where it stands. *)
Definition script (matplotlib_installed : bool) (argv : list string) : M unit :=
  if matplotlib_installed then main argv else raise ImportError.

End Script.
End Trends.

(** * Vocabulary of the specification *)

(** The last [n] items of a list, in their order; all of them when there
    are fewer. *)
Definition last_n {A} (n : nat) (l : list A) : list A :=
  skipn (length l - n) l.

(** The first [n] characters of a string. *)
Definition first_chars (n : nat) (s : string) : string :=
  str_join (firstn n (py_chars s)).

(** A TrendPoint: a JSON object whose [timestamp] is a string. *)
Definition is_trend_point (t : value) : bool :=
  match t with
  | VDict d =>
      match d !! "timestamp" with
      | Some (VStr _) => true
      | _ => false
      end
  | _ => false
  end.

Definition point_timestamp (t : value) : string :=
  match t with
  | VDict d =>
      match d !! "timestamp" with
      | Some (VStr s) => s
      | _ => ""
      end
  | _ => ""
  end.

(** A field of a JSON object, the int 0 when the object lacks it. *)
Definition point_field (name : string) (t : value) : value :=
  match t with
  | VDict d =>
      match d !! name with
      | Some v => v
      | None => VInt 0
      end
  | _ => VInt 0
  end.

(** Text without multi-byte characters: there a character is a byte. *)
Fixpoint single_bytes (s : string) : bool :=
  match s with
  | EmptyString => true
  | String c s' => negb (is_continuation c) && single_bytes s'
  end.






(** The numeric fields of a MetricsSnapshot that the dashboard reads once
    per run, as (group, field) under the top-level key [metrics]. *)
Definition snapshot_numeric_fields : list (string * string) :=
  [ ("coverage", "average");
    ("quality_score", "overall");
    ("test_types", "total_test_files");
    ("flakiness", "flaky_test_count");
    ("test_types", "unit_test_files");
    ("test_types", "integration_test_files");
    ("test_types", "e2e_test_files");
    ("test_types", "benchmark_files");
    ("test_types", "example_files") ].

(** The arithmetic mean of a field over some points: the sum of the values
    divided by their number. *)
Definition mean (name : string) (pts : list value) : result value :=
  total <- py_sum (Trends.field name) pts ;;
  py_truediv total (VInt (Z.of_nat (length pts))).

(** The change of a field from the point [prev] to the point [last]. *)
Definition one_step_delta (name : string) (prev last : value) : result value :=
  x <- Trends.field name last ;;
  y <- Trends.field name prev ;;
  py_sub x y.

(** The sum of a list of integers. *)
Definition total (zs : list Z) : Z := fold_right Z.add 0 zs.





(** The lines of a text, and whether one of them is [line]. *)
Definition lines_of (text : string) : list string :=
  split_on (ascii_of_nat 10) text.
Definition has_line (line text : string) : bool :=
  existsb (String.eqb line) (lines_of text).

(** The keys [generate_test_type_rows] reads, with the labels of their
    rows, in the order of the table. *)
Definition test_type_keys : list (string * string) :=
  [ ("Unit Tests", "unit_test_files");
    ("Integration Tests", "integration_test_files");
    ("E2E Tests", "e2e_test_files");
    ("Benchmarks", "benchmark_files");
    ("Examples", "example_files") ].

(** The first of some keys that a JSON object lacks. *)
Definition first_missing (d : gmap string value) (keys : list string)
    : option string :=
  List.find (fun k => match d !! k with Some _ => false | None => true end) keys.



(** The world after the summary has been written and confirmed. *)
Definition after_summary (od summary : string) (w : world) : world :=
  {| w_dirs := w_dirs w;
     w_files := <[path_of (Trends.summary_file od) := summary]> (w_files w);
     w_stdout := (w_stdout w ++
       ["Summary report saved to: " +:+ Trends.summary_file od])%list;
     w_now := w_now w |}.



(** A snapshot without one field: [metrics['metrics'][group]] loses the
    key [field]; a value that has no such object is left as it is. *)
Definition drop_metric (metrics : value) (group field : string) : value :=
  match metrics with
  | VDict top =>
      match top !! "metrics" with
      | Some (VDict m) =>
          match m !! group with
          | Some (VDict g) =>
              VDict (<["metrics" := VDict (<[group := VDict (delete field g)]> m)]> top)
          | _ => metrics
          end
      | _ => metrics
      end
  | _ => metrics
  end.

(** * Sample data *)

Definition sample_point (ts : string) (cov qual count flaky : value) : value :=
  VDict (<["timestamp" := VStr ts]>
        (<["coverage" := cov]>
        (<["quality_score" := qual]>
        (<["test_count" := count]>
        (<["flaky_count" := flaky]> ∅))))).

(** Twelve daily points; the third has no [coverage]. *)
Definition sample_history : list value :=
  [ sample_point "2024-03-01T08:00:00Z" (VInt 61) (VInt 50) (VInt 40) (VInt 0);
    sample_point "2024-03-02T08:00:00Z" (VInt 62) (VInt 51) (VInt 40) (VInt 1);
    VDict (<["timestamp" := VStr "2024-03-03T08:00:00Z"]>
          (<["quality_score" := VInt 52]> ∅));
    sample_point "2024-03-04T08:00:00Z" (VInt 64) (VInt 53) (VInt 41) (VInt 0);
    sample_point "2024-03-05T08:00:00Z" (VFloat 65.5) (VInt 54) (VInt 41) (VInt 0);
    sample_point "2024-03-06T08:00:00Z" (VInt 66) (VInt 55) (VInt 42) (VInt 4);
    sample_point "2024-03-07T08:00:00Z" (VInt 67) (VInt 56) (VInt 42) (VInt 0);
    sample_point "2024-03-08T08:00:00Z" (VInt 68) (VInt 57) (VInt 43) (VInt 2);
    sample_point "2024-03-09T08:00:00Z" (VInt 69) (VInt 58) (VInt 43) (VInt 0);
    sample_point "2024-03-10T08:00:00Z" (VInt 70) (VInt 59) (VInt 44) (VInt 0);
    sample_point "2024-03-11T08:00:00Z" (VInt 71) (VInt 60) (VInt 44) (VInt 3);
    sample_point "2024-03-12T08:00:00Z" (VInt 72) (VInt 61) (VInt 45) (VInt 1) ].

Definition sample_package (name : string) (cov : value) (files : Z) : value :=
  VDict (<["package" := VStr name]>
        (<["coverage" := cov]>
        (<["test_files" := VInt files]> ∅))).

(** Packages with coverage 10, 90 and 50, in that order. *)
Definition sample_packages : list value :=
  [ sample_package "github.com/bebsworthy/qualhook/cmd" (VInt 10) 1;
    sample_package "github.com/bebsworthy/qualhook/internal/hook" (VInt 90) 7;
    sample_package "github.com/bebsworthy/qualhook/pkg/config" (VInt 50) 3 ].

(** A snapshot around a given [coverage] group. *)
Definition sample_metrics_with (coverage_group : gmap string value) : value :=
  VDict {[ "metrics" := VDict
    (<["coverage" := VDict coverage_group]>
    (<["quality_score" := VDict {[ "overall" := VInt 81 ]}]>
    (<["test_types" := VDict
         (<["total_test_files" := VInt 11]>
         (<["unit_test_files" := VInt 7]>
         (<["integration_test_files" := VInt 2]>
         (<["e2e_test_files" := VInt 1]>
         (<["benchmark_files" := VInt 1]>
         (<["example_files" := VInt 0]> ∅))))))]>
    (<["flakiness" := VDict
         (<["flaky_test_count" := VInt 0]>
         (<["flaky_tests" := VList []]> ∅))]>
    (<["execution_time" := VDict {[ "slowest_tests" := VList [] ]}]> ∅))))) ]}.

(** The same snapshot with [coverage.average] 72.5, 0, and absent. *)
Definition sample_metrics : value :=
  sample_metrics_with
    (<["average" := VFloat 72.5]> {[ "by_package" := VList sample_packages ]}).
Definition sample_metrics_zero_average : value :=
  sample_metrics_with
    (<["average" := VInt 0]> {[ "by_package" := VList sample_packages ]}).
Definition sample_metrics_no_average : value :=
  sample_metrics_with {[ "by_package" := VList sample_packages ]}.

(** Two points with coverage 80 then 70. *)
Definition sample_two_points : list value :=
  [ sample_point "2024-03-11T08:00:00Z" (VInt 80) (VInt 62) (VInt 44) (VInt 0);
    sample_point "2024-03-12T08:00:00Z" (VInt 70) (VInt 64) (VInt 45) (VInt 0) ].

(** Seven points with quality scores 50, 55, ..., 80; the greatest flaky
    count, 4, is not the latest, 1. *)
Definition sample_week : list value :=
  [ sample_point "2024-03-06T08:00:00Z" (VFloat 71.5) (VInt 50) (VInt 42) (VInt 0);
    sample_point "2024-03-07T08:00:00Z" (VFloat 72) (VInt 55) (VInt 42) (VInt 4);
    sample_point "2024-03-08T08:00:00Z" (VFloat 72.5) (VInt 60) (VInt 43) (VInt 2);
    sample_point "2024-03-09T08:00:00Z" (VFloat 73) (VInt 65) (VInt 43) (VInt 0);
    sample_point "2024-03-10T08:00:00Z" (VFloat 73) (VInt 70) (VInt 44) (VInt 3);
    sample_point "2024-03-11T08:00:00Z" (VFloat 74) (VInt 75) (VInt 44) (VInt 0);
    sample_point "2024-03-12T08:00:00Z" (VFloat 74.5) (VInt 80) (VInt 45) (VInt 1) ].

(** A runtime for the examples: [repr] is not needed by them, the only
    JSON texts are the names of the sample values, and files are written in
    UTF-8. *)
Definition sample_runtime : Runtime :=
  {| py_repr := fun _ => "?";
     encodable := utf8_encodable;
     json_loads := fun s =>
       if String.eqb s "history" then Some (VList sample_history)
       else if String.eqb s "empty" then Some (VList [])
       else if String.eqb s "metrics" then Some sample_metrics
       else if String.eqb s "metrics, average 0" then Some sample_metrics_zero_average
       else if String.eqb s "metrics, no average" then Some sample_metrics_no_average
       else None |}.

(** A working directory holding those texts, and nothing else. *)
Definition sample_world : world :=
  {| w_dirs := ∅;
     w_files := {[ ["history.json"] := "history";
                   ["empty.json"] := "empty";
                   ["broken.json"] := "{";
                   ["metrics.json"] := "metrics";
                   ["metrics0.json"] := "metrics, average 0";
                   ["metrics1.json"] := "metrics, no average" ]};
     w_stdout := [];
     w_now := "2024-03-12 09:30:00" |}.

(** * Properties *)

(** ** The order on numbers *)

Lemma Qltb_lt p q : Qltb p q = true <-> (p < q)%Q.
Proof.
  unfold Qltb. rewrite Qlt_alt. destruct (p ?= q)%Q; split; congruence.
Qed.

Lemma Qeqb_eq p q : Qeqb p q = true <-> (p == q)%Q.
Proof.
  unfold Qeqb. rewrite Qeq_alt. destruct (p ?= q)%Q; split; congruence.
Qed.

Lemma xle_fin p q : xle (XFin p) (XFin q) = true <-> (p <= q)%Q.
Proof.
  unfold xle; simpl. rewrite orb_true_iff, Qltb_lt, Qeqb_eq, Qle_lteq. tauto.
Qed.

Lemma xlt_fin p q : xlt (XFin p) (XFin q) = true <-> (p < q)%Q.
Proof. simpl. apply Qltb_lt. Qed.

Lemma xlt_irrefl_le a b : xlt a b = true -> xle b a = false.
Proof.
  destruct a as [|[]|p], b as [|[]|q]; simpl; try discriminate; try reflexivity.
  intros Hlt. apply Qltb_lt in Hlt.
  destruct (xle (XFin q) (XFin p)) eqn:E; [|reflexivity].
  apply xle_fin in E. exfalso. eapply Qlt_not_le; eauto.
Qed.


Lemma xle_trans a b c : xle a b = true -> xle b c = true -> xle a c = true.
Proof.
  destruct a as [|[]|p], b as [|[]|q], c as [|[]|r];
    try (cbv; congruence); try reflexivity.
  rewrite !xle_fin. apply Qle_trans.
Qed.

Lemma xle_nan_l a : xle XNaN a = false.
Proof. destruct a as [|[]|]; reflexivity. Qed.

Lemma xle_nan_r a : xle a XNaN = false.
Proof. destruct a as [|[]|]; reflexivity. Qed.

Lemma Qcompare_int a b : (inject_Z a ?= inject_Z b)%Q = (a ?= b).
Proof. unfold Qcompare; simpl. now rewrite !Z.mul_1_r. Qed.

Lemma xlt_int a b : xlt (XFin (inject_Z a)) (XFin (inject_Z b)) = (a <? b).
Proof.
  simpl. unfold Qltb, Z.ltb. rewrite Qcompare_int. reflexivity.
Qed.

Lemma xeq_int a b : xeq (XFin (inject_Z a)) (XFin (inject_Z b)) = (a =? b).
Proof.
  simpl. unfold Qeqb. rewrite Qcompare_int.
  destruct (Z.compare_spec a b), (Z.eqb_spec a b); try reflexivity; lia.
Qed.

Lemma xle_int a b : xle (XFin (inject_Z a)) (XFin (inject_Z b)) = (a <=? b).
Proof.
  unfold xle. rewrite xlt_int, xeq_int.
  destruct (Z.ltb_spec a b), (Z.eqb_spec a b), (Z.leb_spec a b); simpl; try reflexivity; lia.
Qed.

(** ** [get_score_color] and [get_flaky_class] *)

(** On a number the color is decided by [>=] alone: neither comparison
    raises. *)
Lemma get_score_color_num score x :
  as_num score = Some x ->
  Dashboard.get_score_color score =
    Ok (if xle (XFin (inject_Z 80)) x then "#4caf50"
        else if xle (XFin (inject_Z 60)) x then "#ff9800" else "#f44336").
Proof.
  intros Hx. unfold Dashboard.get_score_color, py_ge, py_cmp.
  rewrite Hx. simpl.
  destruct (xle (XFin (inject_Z 80)) x); [reflexivity|].
  destruct (xle (XFin (inject_Z 60)) x); reflexivity.
Qed.

Lemma py_cmp_num op a b r :
  py_cmp op a b = Ok r ->
  exists x y, as_num a = Some x /\ as_num b = Some y /\ r = op x y.
Proof.
  unfold py_cmp. destruct (as_num a) as [x|], (as_num b) as [y|]; try discriminate.
  intros [= <-]. eauto.
Qed.

(** C3: the color of a score is good ("#4caf50") when [score >= 80],
    warning ("#ff9800") when [score >= 60] and [score < 80], and bad
    ("#f44336") when [score < 60]; 80 gives good, 60 gives warning and 59.9
    gives bad. *)
Theorem get_score_color_thresholds (score : value) :
  (py_ge score (VInt 80) = Ok true ->
   Dashboard.get_score_color score = Ok "#4caf50") /\
  (py_ge score (VInt 60) = Ok true -> py_lt score (VInt 80) = Ok true ->
   Dashboard.get_score_color score = Ok "#ff9800") /\
  (py_lt score (VInt 60) = Ok true ->
   Dashboard.get_score_color score = Ok "#f44336") /\
  Dashboard.get_score_color (VInt 80) = Ok "#4caf50" /\
  Dashboard.get_score_color (VFloat 80) = Ok "#4caf50" /\
  Dashboard.get_score_color (VInt 60) = Ok "#ff9800" /\
  Dashboard.get_score_color (VFloat 60) = Ok "#ff9800" /\
  Dashboard.get_score_color (VFloat 59.9) = Ok "#f44336".
Proof.
  split; [|split; [|split; [|repeat split; vm_compute; reflexivity]]].
  - intros Hge. apply py_cmp_num in Hge as (x & y & Hx & [= <-] & Hr).
    rewrite (get_score_color_num _ _ Hx), <- Hr. reflexivity.
  - intros Hge Hlt.
    apply py_cmp_num in Hge as (x & y & Hx & [= <-] & Hr).
    apply py_cmp_num in Hlt as (x' & y' & Hx' & [= <-] & Hr').
    rewrite Hx in Hx'. injection Hx' as <-.
    rewrite (get_score_color_num _ _ Hx), <- Hr.
    symmetry in Hr'. apply xlt_irrefl_le in Hr'. rewrite Hr'. reflexivity.
  - intros Hlt.
    apply py_cmp_num in Hlt as (x & y & Hx & [= <-] & Hr).
    rewrite (get_score_color_num _ _ Hx).
    symmetry in Hr.
    assert (H60 : xle (XFin (inject_Z 60)) x = false) by now apply xlt_irrefl_le.
    destruct (xle (XFin (inject_Z 80)) x) eqn:H80.
    + assert (Hc : xle (XFin (inject_Z 60)) x = true).
      { eapply xle_trans; [|exact H80]. rewrite xle_int. reflexivity. }
      congruence.
    + rewrite H60. reflexivity.
Qed.

Lemma get_score_color_thresholds_witness :
  py_lt (VFloat 59.9) (VInt 60) = Ok true /\
  Dashboard.get_score_color (VFloat 59.9) = Ok "#f44336".
Proof.
  split; [vm_compute; reflexivity|].
  destruct (get_score_color_thresholds (VFloat 59.9)) as (_ & _ & Hbad & _).
  apply Hbad. vm_compute; reflexivity.
Defined.

(** C4: for an integer count the class is "success" at 0, "warning" at 1
    and 2, and "error" from 3 on. *)
Theorem get_flaky_class_int (count : Z) :
  (count = 0 -> Dashboard.get_flaky_class (VInt count) = Ok "success") /\
  (1 <= count <= 2 -> Dashboard.get_flaky_class (VInt count) = Ok "warning") /\
  (3 <= count -> Dashboard.get_flaky_class (VInt count) = Ok "error").
Proof.
  unfold Dashboard.get_flaky_class, py_eq_int, py_le, py_cmp. cbn [as_num].
  rewrite xeq_int. cbn [rbind]. rewrite xle_int.
  repeat split; intros Hc.
  - subst. reflexivity.
  - destruct (Z.eqb_spec count 0); [lia|].
    destruct (Z.leb_spec count 2); [reflexivity|lia].
  - destruct (Z.eqb_spec count 0); [lia|].
    destruct (Z.leb_spec count 2); [lia|reflexivity].
Qed.

Lemma get_flaky_class_int_witness :
  Dashboard.get_flaky_class (VInt 0) = Ok "success" /\
  Dashboard.get_flaky_class (VInt 2) = Ok "warning" /\
  Dashboard.get_flaky_class (VInt 3) = Ok "error".
Proof.
  split; [|split].
  - apply (get_flaky_class_int 0). reflexivity.
  - apply (get_flaky_class_int 2). lia.
  - apply (get_flaky_class_int 3). lia.
Defined.

(** ** Comprehensions and slices *)

Lemma mapM_map {A B} (f : A -> result B) (g : A -> B) (l : list A) :
  Forall (fun a => f a = Ok (g a)) l -> mapM f l = Ok (map g l).
Proof.
  induction 1 as [|a l Ha _ IH]; simpl; [reflexivity|].
  rewrite Ha, IH. reflexivity.
Qed.

Lemma mapM_length {A B} (f : A -> result B) (l : list A) (r : list B) :
  mapM f l = Ok r -> length r = length l.
Proof.
  revert r. induction l as [|a l IH]; simpl; intros r.
  - intros [= <-]. reflexivity.
  - destruct (f a); [|discriminate]. simpl.
    destruct (mapM f l); [|discriminate]. simpl.
    intros [= <-]. simpl. f_equal. now apply IH.
Qed.

Lemma mapM_Forall2 {A B} (f : A -> result B) (l : list A) (r : list B) :
  mapM f l = Ok r -> Forall2 (fun a b => f a = Ok b) l r.
Proof.
  revert r. induction l as [|a l IH]; simpl; intros r.
  - intros [= <-]. constructor.
  - destruct (f a) eqn:Ha; [|discriminate]. simpl.
    destruct (mapM f l); [|discriminate]. simpl.
    intros [= <-]. constructor; auto.
Qed.

(** [l[-k:]] keeps the last [k] items, all of them when there are fewer. *)
Lemma slice_from_last {A} (k : nat) (l : list A) :
  (0 < k)%nat -> slice_from (- Z.of_nat k) l = skipn (length l - k) l.
Proof.
  intros Hk. unfold slice_from, slice_bound. f_equal.
  destruct (Z.ltb_spec (- Z.of_nat k) 0); lia.
Qed.

(** [l[:k]] keeps the first [k] items. *)
Lemma slice_to_first {A} (k : nat) (l : list A) :
  slice_to (Z.of_nat k) l = firstn k l.
Proof.
  unfold slice_to, slice_bound.
  destruct (Z.ltb_spec (Z.of_nat k) 0); [lia|].
  destruct (Nat.le_gt_cases k (length l)).
  - f_equal. lia.
  - rewrite !firstn_all2 by lia. reflexivity.
Qed.

Lemma skipn_last_length {A} (k : nat) (l : list A) :
  length (skipn (length l - k) l) = Nat.min k (length l).
Proof. rewrite length_skipn. lia. Qed.

Lemma skipn_last_suffix {A} (k : nat) (l : list A) :
  l = (firstn (length l - k) l ++ skipn (length l - k) l)%list.
Proof. symmetry. apply firstn_skipn. Qed.

Lemma last_n_slice {A} (k : nat) (l : list A) :
  (0 < k)%nat -> slice_from (- Z.of_nat k) l = last_n k l.
Proof. apply slice_from_last. Qed.

(** ** The trend charts of the dashboard *)

Lemma last_points_list (trends : list value) :
  Dashboard.last_points (VList trends) = Ok (last_n 10 trends).
Proof.
  unfold Dashboard.last_points. simpl.
  change (-10) with (- Z.of_nat 10). rewrite last_n_slice by lia. reflexivity.
Qed.

Lemma trend_label_point t :
  is_trend_point t = true ->
  Dashboard.trend_label t = Ok (VStr (first_chars 10 (point_timestamp t))).
Proof.
  unfold is_trend_point, Dashboard.trend_label, point_timestamp.
  destruct t as [| | | | |l|d]; try discriminate. simpl.
  destruct (d !! "timestamp") as [[| | | |s| |]|]; try discriminate.
  intros _. simpl. unfold first_chars.
  change 10 with (Z.of_nat 10). rewrite slice_to_first. reflexivity.
Qed.

Lemma py_get_point name t :
  is_trend_point t = true -> py_get t name (VInt 0) = Ok (point_field name t).
Proof.
  destruct t; try discriminate. reflexivity.
Qed.

Lemma Forall_last_n {A} (P : A -> Prop) (k : nat) (l : list A) :
  Forall P l -> Forall P (last_n k l).
Proof.
  intros Hl. unfold last_n. rewrite <- (firstn_skipn (length l - k) l) in Hl.
  apply Forall_app in Hl. tauto.
Qed.

(** C6: the charts of the dashboard show the last ten points of the
    history (all of them when there are fewer), in the order of the
    history; the label of a point is the first ten characters of its
    timestamp, and the two series are its [coverage] and [quality_score],
    0 when absent. *)
Theorem trend_chart_data_last_ten (trends : list value) :
  Forall (fun t => is_trend_point t = true) trends ->
  Dashboard.trend_chart_data (VList trends) =
    Ok {| Dashboard.trend_labels :=
            map (fun t => VStr (first_chars 10 (point_timestamp t)))
                (last_n 10 trends);
          Dashboard.coverage_trend :=
            map (point_field "coverage") (last_n 10 trends);
          Dashboard.quality_trend :=
            map (point_field "quality_score") (last_n 10 trends) |} /\
  (length (last_n 10 trends) <= 10)%nat /\
  exists older, trends = (older ++ last_n 10 trends)%list.
Proof.
  intros Hpts. split; [|split].
  - pose proof (Forall_last_n _ 10 _ Hpts) as Hw.
    unfold Dashboard.trend_chart_data. rewrite last_points_list. cbn [rbind].
    rewrite (mapM_map _ (fun t => VStr (first_chars 10 (point_timestamp t)))).
    2:{ eapply Forall_impl; [exact Hw|]. intros t. apply trend_label_point. }
    cbn [rbind].
    rewrite (mapM_map _ (point_field "coverage")).
    2:{ eapply Forall_impl; [exact Hw|]. intros t. apply py_get_point. }
    cbn [rbind].
    rewrite (mapM_map _ (point_field "quality_score")).
    2:{ eapply Forall_impl; [exact Hw|]. intros t. apply py_get_point. }
    reflexivity.
  - unfold last_n. rewrite skipn_last_length. lia.
  - exists (firstn (length trends - 10) trends). apply skipn_last_suffix.
Qed.

(** On text without multi-byte characters the first [n] characters are the
    first [n] bytes. *)
Lemma chars_aux_single_bytes s :
  single_bytes s = true ->
  chars_aux s = (EmptyString, map (fun c => String c EmptyString) (list_ascii_of_string s)).
Proof.
  induction s as [|c s IH]; simpl; [reflexivity|].
  intros [Hc Hs]%andb_true_iff. rewrite (IH Hs).
  apply negb_true_iff in Hc. rewrite Hc. reflexivity.
Qed.

Lemma first_chars_single_bytes n s :
  single_bytes s = true -> first_chars n s = substring 0 n s.
Proof.
  intros Hs. unfold first_chars, py_chars. rewrite (chars_aux_single_bytes s Hs).
  clear Hs. revert n. induction s as [|c s IH]; intros [|n]; simpl; try reflexivity.
  specialize (IH n). unfold str_join in *.
  destruct (firstn n (map (fun c => String c EmptyString) (list_ascii_of_string s))) eqn:E.
  - simpl in *. now rewrite <- IH.
  - simpl in *. now rewrite <- IH.
Qed.

Lemma trend_chart_data_last_ten_witness :
  Forall (fun t => is_trend_point t = true) sample_history /\
  Dashboard.trend_chart_data (VList sample_history) =
    Ok {| Dashboard.trend_labels :=
            [VStr "2024-03-03"; VStr "2024-03-04"; VStr "2024-03-05";
             VStr "2024-03-06"; VStr "2024-03-07"; VStr "2024-03-08";
             VStr "2024-03-09"; VStr "2024-03-10"; VStr "2024-03-11";
             VStr "2024-03-12"];
          Dashboard.coverage_trend :=
            [VInt 0; VInt 64; VFloat 65.5; VInt 66; VInt 67; VInt 68; VInt 69;
             VInt 70; VInt 71; VInt 72];
          Dashboard.quality_trend :=
            [VInt 52; VInt 53; VInt 54; VInt 55; VInt 56; VInt 57; VInt 58;
             VInt 59; VInt 60; VInt 61] |}.
Proof.
  assert (Hpts : Forall (fun t => is_trend_point t = true) sample_history)
    by (repeat constructor).
  split; [exact Hpts|].
  destruct (trend_chart_data_last_ten sample_history Hpts) as [Heq _].
  rewrite Heq. vm_compute. reflexivity.
Defined.

(** ** [sorted(..., reverse=True)] *)




Section Sorting.
Context {A : Type}.



End Sorting.

(** ** The package table *)







(** ** Field access in the dashboard *)

Ltac run_until_raise :=
  repeat match goal with
    | |- exists e, rbind ?c _ = Raise e =>
        destruct c eqn:?; cbn [rbind]; [|eexists; reflexivity]
    end.

Lemma test_type_rows_require `{Runtime} g field :
  In field ["unit_test_files"; "integration_test_files"; "e2e_test_files";
            "benchmark_files"; "example_files"] ->
  py_item g field = Raise (KeyError field) ->
  exists e, Dashboard.generate_test_type_rows g = Raise e.
Proof.
  intros Hin Habs. unfold Dashboard.generate_test_type_rows.
  simpl in Hin. destruct Hin as [<-|[<-|[<-|[<-|[<-|[]]]]]];
    run_until_raise; congruence.
Qed.

(** What [dashboard_page] reads from the snapshot it cannot do without. *)
Lemma dashboard_page_requires `{Runtime} metrics trends now group field :
  In (group, field) snapshot_numeric_fields ->
  Dashboard.metric metrics group field = Raise (KeyError field) ->
  exists e, Dashboard.dashboard_page metrics trends now = Raise e.
Proof.
  intros Hin Habs. unfold Dashboard.dashboard_page.
  simpl in Hin.
  destruct Hin as [E|[E|[E|[E|Hin]]]]; try (injection E as <- <-).
  1-4: run_until_raise; congruence.
  assert (Hf : In field ["unit_test_files"; "integration_test_files";
                         "e2e_test_files"; "benchmark_files"; "example_files"]
               /\ group = "test_types").
  { simpl. destruct Hin as [E|[E|[E|[E|[E|[]]]]]]; injection E as <- <-; tauto. }
  destruct Hf as [Hf ->]. clear Hin.
  unfold Dashboard.metric in Habs.
  do 13 match goal with
    | |- exists e, rbind ?c _ = Raise e =>
        destruct c eqn:?; cbn [rbind]; [|eexists; reflexivity]
    end.
  cbn [rbind] in Habs.
  destruct (test_type_rows_require _ _ Hf Habs) as [e He].
  rewrite He. cbn [rbind]. eauto.
Qed.


(** A run whose page cannot be computed ends with that exception and
    leaves the world as it found it. *)
Lemma generate_dashboard_raise `{Runtime} page_text mf tf outf w metrics trends e :
  json_load mf w = (Ok metrics, w) ->
  json_load tf w = (Ok trends, w) ->
  Dashboard.dashboard_page metrics trends (w_now w) = Raise e ->
  Dashboard.generate_dashboard page_text mf tf outf w = (Raise e, w).
Proof.
  intros Hm Ht He. unfold Dashboard.generate_dashboard.
  unfold mbind at 1. rewrite Hm.
  unfold mbind at 1. rewrite Ht.
  unfold mbind at 1. unfold now_text.
  unfold mbind at 1. unfold lift. rewrite He. reflexivity.
Qed.

(** Removing a field leaves every other access of the snapshot as it
    was. *)
Lemma metric_group_drop_ne full group field group' :
  group' <> group ->
  Dashboard.metric_group (drop_metric full group field) group' =
  Dashboard.metric_group full group'.
Proof.
  intros Hne. unfold drop_metric.
  destruct full as [| | | | | |top]; try reflexivity.
  destruct (top !! "metrics") as [[| | | | | |m]|] eqn:Hm; try reflexivity.
  destruct (m !! group) as [[| | | | | |g]|] eqn:Hg; try reflexivity.
  unfold Dashboard.metric_group, py_item.
  rewrite lookup_insert_eq, Hm. cbn [rbind].
  rewrite lookup_insert_ne by congruence. reflexivity.
Qed.

Lemma metric_group_drop_eq full group field (g : gmap string value) :
  Dashboard.metric_group full group = Ok (VDict g) ->
  Dashboard.metric_group (drop_metric full group field) group =
    Ok (VDict (delete field g)).
Proof.
  unfold drop_metric, Dashboard.metric_group, py_item.
  destruct full as [| | | | | |top]; try discriminate.
  destruct (top !! "metrics") as [[| | | | | |m]|] eqn:Hm; try discriminate.
  cbn [rbind].
  destruct (m !! group) as [v|] eqn:Hg; [|discriminate].
  intros [= ->]. rewrite lookup_insert_eq. cbn [rbind].
  rewrite lookup_insert_eq. reflexivity.
Qed.

Lemma drop_metric_id full group field :
  (forall g : gmap string value,
     Dashboard.metric_group full group <> Ok (VDict g)) ->
  drop_metric full group field = full.
Proof.
  intros Hno. unfold drop_metric.
  destruct full as [| | | | | |top]; try reflexivity.
  destruct (top !! "metrics") as [[| | | | | |m]|] eqn:Hm; try reflexivity.
  destruct (m !! group) as [[| | | | | |g]|] eqn:Hg; try reflexivity.
  exfalso. apply (Hno g). unfold Dashboard.metric_group, py_item.
  rewrite Hm. cbn [rbind]. rewrite Hg. reflexivity.
Qed.

Lemma metric_drop_ne full group field group' field' :
  group' <> group \/ field' <> field ->
  Dashboard.metric (drop_metric full group field) group' field' =
  Dashboard.metric full group' field'.
Proof.
  intros Hne. unfold Dashboard.metric.
  destruct (decide (group' = group)) as [->|Hg].
  - destruct Hne as [Hne|Hne]; [congruence|].
    destruct (Dashboard.metric_group full group) as [[| | | | | |g]|e] eqn:Hgrp;
      try (rewrite drop_metric_id by (intros g'; congruence); rewrite Hgrp; reflexivity).
    rewrite (metric_group_drop_eq _ _ _ _ Hgrp). cbn [rbind py_item].
    rewrite lookup_delete_ne by congruence. reflexivity.
  - rewrite metric_group_drop_ne by exact Hg. reflexivity.
Qed.

Lemma metric_drop_eq full group field v :
  Dashboard.metric full group field = Ok v ->
  Dashboard.metric (drop_metric full group field) group field =
    Raise (KeyError field).
Proof.
  unfold Dashboard.metric.
  destruct (Dashboard.metric_group full group) as [[| | | | | |g]|e] eqn:Hgrp;
    try discriminate.
  intros _. rewrite (metric_group_drop_eq _ _ _ _ Hgrp). cbn [rbind py_item].
  rewrite lookup_delete_eq. reflexivity.
Qed.

(** The rows of the test-type table need the five keys, and miss the first
    one that was removed. *)
Lemma test_type_rows_drop `{Runtime} (g : gmap string value) field html :
  In field ["unit_test_files"; "integration_test_files"; "e2e_test_files";
            "benchmark_files"; "example_files"] ->
  Dashboard.generate_test_type_rows (VDict g) = Ok html ->
  Dashboard.generate_test_type_rows (VDict (delete field g)) =
    Raise (KeyError field).
Proof.
  intros Hin. unfold Dashboard.generate_test_type_rows, py_item.
  destruct (g !! "unit_test_files") eqn:E1; [|discriminate].
  destruct (g !! "integration_test_files") eqn:E2; [|discriminate].
  destruct (g !! "e2e_test_files") eqn:E3; [|discriminate].
  destruct (g !! "benchmark_files") eqn:E4; [|discriminate].
  destruct (g !! "example_files") eqn:E5; [|discriminate].
  intros _. simpl in Hin.
  destruct Hin as [<-|[<-|[<-|[<-|[<-|[]]]]]];
    repeat first
      [ rewrite lookup_delete_eq; reflexivity
      | rewrite lookup_delete_ne by discriminate;
        first [rewrite E1|rewrite E2|rewrite E3|rewrite E4|rewrite E5];
        cbn [rbind] ].
Qed.

(** One step of rendering, the same in the snapshot and in the one without
    the field: the accesses before the removed field agree. *)
Ltac sync_step Hok :=
  rewrite ?metric_drop_ne by (first [left; discriminate | right; discriminate]);
  rewrite ?metric_group_drop_ne by discriminate;
  match type of Hok with
  | rbind ?c _ = Ok _ =>
      let E := fresh "E" in
      destruct c eqn:E; [|discriminate Hok]; cbn [rbind] in Hok |- *
  end.

(** A snapshot that renders stops rendering when one of its numeric fields
    is removed, and the exception names the field. *)
Lemma dashboard_page_drop `{Runtime} full trends now pg group field :
  In (group, field) snapshot_numeric_fields ->
  Dashboard.dashboard_page full trends now = Ok pg ->
  Dashboard.dashboard_page (drop_metric full group field) trends now =
    Raise (KeyError field).
Proof.
  intros Hin Hok. unfold Dashboard.dashboard_page in *.
  simpl in Hin.
  destruct Hin as [E|[E|[E|[E|Hin]]]]; try (injection E as <- <-).
  - sync_step Hok. now rewrite (metric_drop_eq _ _ _ _ E).
  - do 2 sync_step Hok. now rewrite (metric_drop_eq _ _ _ _ E0).
  - do 3 sync_step Hok. now rewrite (metric_drop_eq _ _ _ _ E1).
  - do 4 sync_step Hok. now rewrite (metric_drop_eq _ _ _ _ E2).
  - simpl in Hin.
    destruct Hin as [E|[E|[E|[E|[E|[]]]]]]; injection E as <- <-.
    all: do 12 sync_step Hok.
    all: destruct (Dashboard.metric_group full "test_types") as [tt|] eqn:Ett;
      [|discriminate Hok].
    all: cbn [rbind] in Hok.
    all: destruct (Dashboard.generate_test_type_rows tt) as [rows|] eqn:Erows;
      [|discriminate Hok].
    all: destruct tt as [| | | | | |g]; try discriminate Erows.
    all: rewrite (metric_group_drop_eq _ _ _ _ Ett); cbn [rbind].
    all: erewrite test_type_rows_drop; [reflexivity| |exact Erows].
    all: simpl; tauto.
Qed.

(** C2, as the code has it: every numeric field the dashboard reads from
    the MetricsSnapshot is a required key, and none is replaced by 0.  A
    run on a snapshot that lacks one raises, and the world stays as it was:
    nothing is written.  When the snapshot is one that renders but for the
    removed field, what is raised is the key-lookup failure [KeyError]
    naming that field.  What counts as 0 when absent is a field read with
    [.get(name, 0)], as the [coverage] and [quality_score] of a trend point
    are. *)
Theorem metrics_fields_required `{Runtime} (page_text : Dashboard.page -> string)
    (mf tf outf : string) (w : world) (metrics trends : value)
    (group field : string) :
  In (group, field) snapshot_numeric_fields ->
  json_load mf w = (Ok metrics, w) ->
  json_load tf w = (Ok trends, w) ->
  Dashboard.metric metrics group field = Raise (KeyError field) ->
  (exists e, Dashboard.generate_dashboard page_text mf tf outf w = (Raise e, w)) /\
  (forall full pg,
     metrics = drop_metric full group field ->
     Dashboard.dashboard_page full trends (w_now w) = Ok pg ->
     Dashboard.generate_dashboard page_text mf tf outf w =
       (Raise (KeyError field), w)) /\
  (forall (d : gmap string value) ts,
     d !! "timestamp" = Some (VStr ts) ->
     d !! "coverage" = None -> d !! "quality_score" = None ->
     Dashboard.trend_chart_data (VList [VDict d]) =
       Ok {| Dashboard.trend_labels := [VStr (first_chars 10 ts)];
             Dashboard.coverage_trend := [VInt 0];
             Dashboard.quality_trend := [VInt 0] |}).
Proof.
  intros Hin Hm Ht Habs. split; [|split].
  - destruct (dashboard_page_requires metrics trends (w_now w) _ _ Hin Habs)
      as [e He].
    exists e. now apply (generate_dashboard_raise _ _ _ _ _ metrics trends).
  - intros full pg -> Hok.
    apply (generate_dashboard_raise _ _ _ _ _ (drop_metric full group field) trends);
      auto.
    now apply (dashboard_page_drop full trends (w_now w) pg).
  - intros d ts Hts Hcov Hqual. unfold Dashboard.trend_chart_data.
    rewrite last_points_list. cbn [rbind last_n length Nat.sub skipn mapM].
    unfold Dashboard.trend_label, py_item, py_get.
    rewrite Hts, Hcov, Hqual. cbn [rbind py_slice_to].
    change 10 with (Z.of_nat 10). rewrite slice_to_first. reflexivity.
Qed.

Lemma metrics_fields_required_witness :
  In ("test_types", "unit_test_files") snapshot_numeric_fields /\
  @Dashboard.metric (drop_metric sample_metrics "test_types" "unit_test_files")
     "test_types" "unit_test_files" = Raise (KeyError "unit_test_files") /\
  (exists pg, @Dashboard.dashboard_page sample_runtime sample_metrics
                (VList sample_history) "2024-03-12 09:30:00" = Ok pg) /\
  @Dashboard.generate_dashboard
    {| py_repr := fun _ => "?"; encodable := utf8_encodable;
       json_loads := fun s =>
         if String.eqb s "history" then Some (VList sample_history)
         else Some (drop_metric sample_metrics "test_types" "unit_test_files") |}
    (fun _ => "page")
    "metrics.json" "history.json" "dashboard.html" sample_world =
    (Raise (KeyError "unit_test_files"), sample_world).
Proof.
  set (rt := {| py_repr := fun _ => "?"; encodable := utf8_encodable;
                json_loads := fun s =>
                  if String.eqb s "history" then Some (VList sample_history)
                  else Some (drop_metric sample_metrics "test_types"
                                         "unit_test_files") |}).
  assert (Hin : In ("test_types", "unit_test_files") snapshot_numeric_fields)
    by (simpl; auto 10).
  assert (Habs : @Dashboard.metric
                   (drop_metric sample_metrics "test_types" "unit_test_files")
                   "test_types" "unit_test_files" =
                 Raise (KeyError "unit_test_files")) by (vm_compute; reflexivity).
  destruct (@Dashboard.dashboard_page rt sample_metrics (VList sample_history)
              "2024-03-12 09:30:00") as [pg|] eqn:Hpg;
    [|vm_compute in Hpg; discriminate].
  split; [exact Hin|]. split; [exact Habs|].
  split; [exists pg; exact Hpg|].
  refine (proj1 (proj2 (@metrics_fields_required rt (fun _ => "page")
            "metrics.json" "history.json" "dashboard.html" sample_world
            (drop_metric sample_metrics "test_types" "unit_test_files")
            (VList sample_history)
            "test_types" "unit_test_files" Hin _ _ Habs)) sample_metrics pg
            eq_refl Hpg);
    vm_compute; reflexivity.
Defined.

(** C2 as stated fails: with [coverage.average] absent the run raises
    [KeyError], and with it present and 0 the run succeeds; the absent field
    was not read as 0. *)
Lemma absent_average_not_zero :
  fst (@Dashboard.generate_dashboard sample_runtime (fun _ => "page")
         "metrics1.json" "history.json" "dashboard.html" sample_world) =
    Raise (KeyError "average") /\
  fst (@Dashboard.generate_dashboard sample_runtime (fun _ => "page")
         "metrics0.json" "history.json" "dashboard.html" sample_world) =
    Ok tt /\
  @Dashboard.metric sample_metrics_no_average "coverage" "average" =
    Raise (KeyError "average") /\
  @Dashboard.metric sample_metrics_zero_average "coverage" "average" =
    Ok (VInt 0).
Proof. repeat split; vm_compute; reflexivity. Qed.

(** ** The summary statistics *)

Lemma rbind_assoc {A B C} (r : result A) (f : A -> result B) (g : B -> result C) :
  rbind (rbind r f) g = rbind r (fun a => rbind (f a) g).
Proof. destruct r; reflexivity. Qed.

Lemma append_cons x (a b : string) : String x a +:+ b = String x (a +:+ b).
Proof. reflexivity. Qed.

Lemma append_nil (b : string) : "" +:+ b = b.
Proof. reflexivity. Qed.


Lemma str_app_assoc (a b c : string) : (a +:+ b) +:+ c = a +:+ (b +:+ c).
Proof.
  induction a as [|x a IH]; [reflexivity|]. now rewrite !append_cons, IH.
Qed.

(** A negative index counts from the end. *)
Lemma index_from_end {A} (l : list A) (k : nat) :
  (0 < k <= length l)%nat ->
  index l (- Z.of_nat k) =
    match nth_error l (length l - k) with
    | Some x => Ok x
    | None => Raise IndexError
    end.
Proof.
  intros Hk. unfold index. cbv zeta.
  destruct (Z.ltb_spec (- Z.of_nat k) 0); [|lia].
  destruct (Z.ltb_spec (- Z.of_nat k + Z.of_nat (length l)) 0); [lia|].
  destruct (Z.leb_spec (Z.of_nat (length l))
                       (- Z.of_nat k + Z.of_nat (length l))); [lia|].
  cbn [orb].
  replace (Z.to_nat (- Z.of_nat k + Z.of_nat (length l)))
    with (length l - k)%nat by lia.
  reflexivity.
Qed.

(** [l[-1]] and [l[-2]] are the last two items. *)
Lemma index_last_two {A} (older : list A) (a b : A) :
  index (older ++ [a; b]) (-1) = Ok b /\ index (older ++ [a; b]) (-2) = Ok a.
Proof.
  assert (Hlen : length (older ++ [a; b]) = (length older + 2)%nat)
    by (rewrite length_app; reflexivity).
  split.
  - change (-1) with (- Z.of_nat 1). rewrite index_from_end by lia.
    rewrite Hlen, nth_error_app2 by lia.
    replace (length older + 2 - 1 - length older)%nat with 1%nat by lia.
    reflexivity.
  - change (-2) with (- Z.of_nat 2). rewrite index_from_end by lia.
    rewrite Hlen, nth_error_app2 by lia.
    replace (length older + 2 - 2 - length older)%nat with 0%nat by lia.
    reflexivity.
Qed.

(** The statistics in the words of the specification: means and maximum
    over the last seven points, one-step changes between the last two. *)
Lemma summary_stats_spec (older : list value) (a b : value) :
  let trends := (older ++ [a; b])%list in
  Trends.summary_stats (VList trends) =
    (avg_cov <- mean "coverage" (last_n 7 trends) ;;
     avg_qual <- mean "quality_score" (last_n 7 trends) ;;
     flaky <- py_max (Trends.field "flaky_count") (last_n 7 trends) ;;
     cov_trend <- one_step_delta "coverage" a b ;;
     qual_trend <- one_step_delta "quality_score" a b ;;
     Ok {| Trends.avg_coverage := avg_cov; Trends.avg_quality := avg_qual;
           Trends.max_flaky := flaky; Trends.coverage_trend := cov_trend;
           Trends.quality_trend := qual_trend |}).
Proof.
  intros trends. subst trends. unfold Trends.summary_stats, Trends.field_at.
  cbn [py_slice_from py_iter py_len py_index rbind].
  change (-7) with (- Z.of_nat 7). rewrite last_n_slice by lia.
  destruct (index_last_two older a b) as [-> ->]. cbn [rbind].
  unfold mean, one_step_delta.
  repeat match goal with
    | |- rbind ?c _ = _ => destruct c; cbn [rbind]; [|reflexivity]
    end.
  reflexivity.
Qed.

Lemma split_last_two {A} (l : list A) :
  (2 <= length l)%nat -> exists older a b, l = (older ++ [a; b])%list.
Proof.
  intros Hl. exists (firstn (length l - 2) l).
  pose proof (firstn_skipn (length l - 2) l) as Hsplit.
  pose proof (length_skipn (length l - 2) l) as Hlen.
  destruct (skipn (length l - 2) l) as [|a [|b [|c t]]]; simpl in Hlen; try lia.
  exists a, b. now symmetry.
Qed.

Lemma one_step_delta_int name (da db : gmap string value) (x y : Z) :
  da !! name = Some (VInt y) -> db !! name = Some (VInt x) ->
  one_step_delta name (VDict da) (VDict db) = Ok (VInt (x - y)).
Proof.
  intros Ha Hb. unfold one_step_delta, Trends.field. simpl.
  rewrite Ha, Hb. reflexivity.
Qed.


Lemma has_line_In line text : has_line line text = true -> In line (lines_of text).
Proof.
  unfold has_line. intros (x & Hin & Heq)%existsb_exists.
  apply String.eqb_eq in Heq. now subst.
Qed.

(** The two-point sample, evaluated. *)
Lemma two_points_summary `{Runtime} :
  Trends.summary_stats (VList sample_two_points) =
    Ok {| Trends.avg_coverage := VFloat 75; Trends.avg_quality := VFloat 63;
          Trends.max_flaky := VInt 0; Trends.coverage_trend := VInt (-10);
          Trends.quality_trend := VInt 2 |} /\
  (text <- Trends.summary_text "2024-03-12 09:30:00" (VList sample_two_points) ;;
   Ok (has_line "- **Coverage Change**: -10.0%" text)) = Ok true.
Proof. split; vm_compute; reflexivity. Qed.

(** What the summary step does on a history of at least two points: it
    computes the text, and raises what that raises; else it opens the
    summary file, writes the text and prints the confirmation. *)
Lemma generate_summary_stats_run `{Runtime} (trends : list value) od w :
  (2 <= length trends)%nat ->
  Trends.generate_summary_stats (VList trends) od w =
    match Trends.summary_text (w_now w) (VList trends) with
    | Raise e => (Raise e, w)
    | Ok summary =>
        if open_refused w (path_of (Trends.summary_file od))
        then (Raise OSError, w)
        else if encodable summary then (Ok tt, after_summary od summary w)
        else (Raise UnicodeEncodeError,
              store (path_of (Trends.summary_file od)) "" w)
    end.
Proof.
  intros Hlen. unfold Trends.generate_summary_stats.
  unfold mbind at 1. unfold lift at 1. cbn [py_len].
  destruct (Z.ltb_spec (Z.of_nat (length trends)) 2); [lia|].
  unfold mbind at 1. unfold now_text. unfold mbind at 1. unfold lift.
  destruct (Trends.summary_text (w_now w) (VList trends)) as [summary|e];
    [|reflexivity].
  unfold mbind, write_text.
  destruct (open_refused w (path_of (Trends.summary_file od))); [reflexivity|].
  destruct (encodable summary); reflexivity.
Qed.

(** The two changes are reported in the text, one line each, formatted
    with a sign and one decimal. *)
Lemma summary_reports_trends `{Runtime} now (trends : value) text :
  Trends.summary_text now trends = Ok text ->
  exists s cov qual pre post,
    Trends.summary_stats trends = Ok s /\
    py_format_f true 1 (Trends.coverage_trend s) = Ok cov /\
    py_format_f true 1 (Trends.quality_trend s) = Ok qual /\
    text = pre +:+ "- **Coverage Change**: " +:+ cov +:+ "%" +:+ nl +:+
           "- **Quality Score Change**: " +:+ qual +:+ nl +:+ post.
Proof.
  unfold Trends.summary_text.
  destruct (Trends.summary_stats trends) as [s|]; [|discriminate]. cbn [rbind].
  unfold Trends.summary_header.
  destruct (py_format_f false 1 (Trends.avg_coverage s)) as [avg_cov|];
    [|discriminate]. cbn [rbind].
  destruct (py_format_f false 1 (Trends.avg_quality s)) as [avg_qual|];
    [|discriminate]. cbn [rbind].
  destruct (py_format_f true 1 (Trends.coverage_trend s)) as [cov|] eqn:Hcov;
    [|discriminate]. cbn [rbind].
  destruct (py_format_f true 1 (Trends.quality_trend s)) as [qual|] eqn:Hqual;
    [|discriminate]. cbn [rbind].
  destruct (Trends.field_at trends (-1) "coverage") as [v1|]; [|discriminate].
  cbn [rbind].
  destruct (py_format_f false 1 v1) as [latest_cov|]; [|discriminate]. cbn [rbind].
  destruct (Trends.field_at trends (-1) "quality_score") as [v2|]; [|discriminate].
  cbn [rbind].
  destruct (py_format_f false 1 v2) as [latest_qual|]; [|discriminate]. cbn [rbind].
  destruct (Trends.field_at trends (-1) "flaky_count") as [v3|]; [|discriminate].
  cbn [rbind].
  destruct (Trends.recommendations s) as [lines|]; [|discriminate]. cbn [rbind].
  intros [= <-].
  exists s, cov, qual.
  exists ("# Test Quality Summary Report" +:+ nl +:+
      nl +:+
      "Generated: " +:+ now +:+ nl +:+
      nl +:+
      "## 7-Day Averages" +:+ nl +:+
      "- **Average Coverage**: " +:+ avg_cov +:+ "%" +:+ nl +:+
      "- **Average Quality Score**: " +:+ avg_qual +:+ "/100" +:+ nl +:+
      "- **Maximum Flaky Tests**: " +:+ py_str (Trends.max_flaky s) +:+ nl +:+
      nl +:+
      "## Recent Trends" +:+ nl).
  exists (nl +:+
      "## Current Status" +:+ nl +:+
      "- **Latest Coverage**: " +:+ latest_cov +:+ "%" +:+ nl +:+
      "- **Latest Quality Score**: " +:+ latest_qual +:+ "/100" +:+ nl +:+
      "- **Latest Flaky Tests**: " +:+ py_str v3 +:+ nl +:+
      nl +:+
      "## Recommendations" +:+ nl +:+ str_join lines).
  split; [reflexivity|]. split; [exact Hcov|]. split; [exact Hqual|].
  rewrite !str_app_assoc. reflexivity.
Qed.

(** C7: with fewer than two points the summary step returns at once and
    the world is as before, so no file is written.  With at least two it
    computes the summary and writes it: where the text is computed, the
    file can be opened and the text encoded, the world afterwards is the
    one before with the text in the summary file and the confirmation
    printed; where computing the text raises, that is raised and nothing is
    written.  [coverage_trend] and [quality_trend] are the value at the
    last point minus the value at the one before, and the text reports
    them on its lines "Coverage Change" and "Quality Score Change"; for
    integer values they are the difference, and coverage 80 then 70 is
    reported as "-10.0". *)
Theorem summary_needs_two_points `{Runtime} :
  (forall (trends : list value) output_dir w,
     (length trends < 2)%nat ->
     Trends.generate_summary_stats (VList trends) output_dir w = (Ok tt, w)) /\
  (forall (trends : list value) output_dir w summary,
     (2 <= length trends)%nat ->
     Trends.summary_text (w_now w) (VList trends) = Ok summary ->
     open_refused w (path_of (Trends.summary_file output_dir)) = false ->
     encodable summary = true ->
     Trends.generate_summary_stats (VList trends) output_dir w =
       (Ok tt, after_summary output_dir summary w)) /\
  (forall (trends : list value) output_dir w e,
     (2 <= length trends)%nat ->
     Trends.summary_text (w_now w) (VList trends) = Raise e ->
     Trends.generate_summary_stats (VList trends) output_dir w = (Raise e, w)) /\
  (forall (older : list value) a b s,
     Trends.summary_stats (VList (older ++ [a; b])) = Ok s ->
     one_step_delta "coverage" a b = Ok (Trends.coverage_trend s) /\
     one_step_delta "quality_score" a b = Ok (Trends.quality_trend s)) /\
  (forall now (trends : value) text,
     Trends.summary_text now trends = Ok text ->
     exists s cov qual pre post,
       Trends.summary_stats trends = Ok s /\
       py_format_f true 1 (Trends.coverage_trend s) = Ok cov /\
       py_format_f true 1 (Trends.quality_trend s) = Ok qual /\
       text = pre +:+ "- **Coverage Change**: " +:+ cov +:+ "%" +:+ nl +:+
              "- **Quality Score Change**: " +:+ qual +:+ nl +:+ post) /\
  (forall name (da db : gmap string value) (x y : Z),
     da !! name = Some (VInt y) -> db !! name = Some (VInt x) ->
     one_step_delta name (VDict da) (VDict db) = Ok (VInt (x - y))) /\
  (exists s text,
     Trends.summary_stats (VList sample_two_points) = Ok s /\
     Trends.coverage_trend s = VInt (-10) /\
     py_format_f true 1 (Trends.coverage_trend s) = Ok "-10.0" /\
     Trends.summary_text "2024-03-12 09:30:00" (VList sample_two_points) = Ok text /\
     In "- **Coverage Change**: -10.0%" (lines_of text)).
Proof.
  split; [|split; [|split; [|split; [|split; [|split]]]]].
  - intros trends output_dir w Hlen. unfold Trends.generate_summary_stats.
    unfold mbind, lift. cbn [py_len].
    destruct (Z.ltb_spec (Z.of_nat (length trends)) 2); [reflexivity|lia].
  - intros trends output_dir w summary Hlen Htext Hopen Henc.
    rewrite generate_summary_stats_run by exact Hlen.
    now rewrite Htext, Hopen, Henc.
  - intros trends output_dir w e Hlen Htext.
    rewrite generate_summary_stats_run by exact Hlen.
    now rewrite Htext.
  - intros older a b s. rewrite summary_stats_spec.
    repeat match goal with
      | |- rbind ?c _ = _ -> _ => destruct c; cbn [rbind]; [|discriminate]
      end.
    intros [= <-]. split; reflexivity.
  - apply summary_reports_trends.
  - apply one_step_delta_int.
  - destruct two_points_summary as (Hs & Ht).
    destruct (Trends.summary_text "2024-03-12 09:30:00" (VList sample_two_points))
      as [text|]; [|discriminate].
    cbn [rbind] in Ht. injection Ht as Ht.
    eexists. exists text. split; [exact Hs|]. split; [reflexivity|].
    split; [vm_compute; reflexivity|]. split; [reflexivity|].
    now apply has_line_In.
Qed.

(** One point: nothing happens.  The two points with coverage 80 then 70,
    in the working directory: the summary file is written, and one of its
    lines reports the change as -10.0. *)
Lemma summary_needs_two_points_witness :
  ((length [sample_point "2024-03-12T08:00:00Z" (VInt 70) (VInt 64) (VInt 45) (VInt 0)]
     < 2)%nat /\
   @Trends.generate_summary_stats sample_runtime
     (VList [sample_point "2024-03-12T08:00:00Z" (VInt 70) (VInt 64) (VInt 45) (VInt 0)])
     "out" sample_world = (Ok tt, sample_world)) /\
  ((2 <= length sample_two_points)%nat /\
   exists summary,
     @Trends.summary_text sample_runtime (w_now sample_world)
       (VList sample_two_points) = Ok summary /\
     @Trends.generate_summary_stats sample_runtime (VList sample_two_points)
       "." sample_world = (Ok tt, after_summary "." summary sample_world) /\
     w_files (after_summary "." summary sample_world)
       !! ["test_quality_summary.md"] = Some summary /\
     has_line "- **Coverage Change**: -10.0%" summary = true).
Proof.
  split.
  - split; [simpl; lia|].
    apply (proj1 (@summary_needs_two_points sample_runtime)). simpl; lia.
  - split; [simpl; lia|].
    destruct (@Trends.summary_text sample_runtime (w_now sample_world)
                (VList sample_two_points)) as [summary|] eqn:Ht;
      [|vm_compute in Ht; discriminate].
    exists summary. split; [reflexivity|].
    assert (Henc : utf8_encodable summary = true /\
                   has_line "- **Coverage Change**: -10.0%" summary = true).
    { vm_compute in Ht. injection Ht as <-. split; vm_compute; reflexivity. }
    split; [|split; [|apply Henc]].
    + apply (proj1 (proj2 (@summary_needs_two_points sample_runtime)));
        [simpl; lia|exact Ht|vm_compute; reflexivity|apply Henc].
    + unfold after_summary. cbn [w_files].
      change (path_of (Trends.summary_file ".")) with ["test_quality_summary.md"].
      apply lookup_insert_eq.
Defined.


Lemma py_sum_from_int {A} (f : A -> result value) (pts : list A) (zs : list Z)
    (acc : Z) :
  Forall2 (fun p z => f p = Ok (VInt z)) pts zs ->
  py_sum_from f (VInt acc) pts = Ok (VInt (acc + total zs)).
Proof.
  intros Hz. revert acc. induction Hz as [|p z pts zs Hp _ IH]; intros acc; simpl.
  - f_equal. f_equal. lia.
  - rewrite Hp. cbn [rbind]. unfold py_add, py_arith. cbn [to_num rbind].
    rewrite IH. f_equal. f_equal. lia.
Qed.

(** The mean of integer values is their exact sum divided by their number,
    rounded once to a float. *)
Lemma mean_int name (pts : list value) (zs : list Z) :
  Forall2 (fun p z => Trends.field name p = Ok (VInt z)) pts zs ->
  mean name pts =
    (f <- int_truediv (total zs) (Z.of_nat (length zs)) ;; Ok (VFloat f)).
Proof.
  intros Hz. unfold mean, py_sum. rewrite (py_sum_from_int _ _ zs 0 Hz).
  cbn [rbind]. rewrite (Forall2_length _ _ _ Hz). reflexivity.
Qed.

(** C8: [avg_coverage] and [avg_quality] are the means of [coverage] and
    [quality_score] over the last seven points of the history, over all of
    them when there are fewer; the mean of integer values is their sum
    divided by their number, and the seven scores 50, 55, ..., 80 average
    to 65.0. *)
Theorem averages_over_last_seven :
  (forall (trends : list value) s,
     (2 <= length trends)%nat ->
     Trends.summary_stats (VList trends) = Ok s ->
     mean "coverage" (last_n 7 trends) = Ok (Trends.avg_coverage s) /\
     mean "quality_score" (last_n 7 trends) = Ok (Trends.avg_quality s)) /\
  (forall trends : list value,
     length (last_n 7 trends) = Nat.min 7 (length trends) /\
     exists older, trends = (older ++ last_n 7 trends)%list) /\
  (forall name (pts : list value) (zs : list Z),
     Forall2 (fun p z => Trends.field name p = Ok (VInt z)) pts zs ->
     mean name pts =
       (f <- int_truediv (total zs) (Z.of_nat (length zs)) ;; Ok (VFloat f))) /\
  (last_n 7 sample_week = sample_week /\
   Forall2 (fun p z => Trends.field "quality_score" p = Ok (VInt z))
     sample_week [50; 55; 60; 65; 70; 75; 80] /\
   mean "quality_score" sample_week = Ok (VFloat 65) /\
   exists s, Trends.summary_stats (VList sample_week) = Ok s /\
             Trends.avg_quality s = VFloat 65).
Proof.
  split; [|split; [|split]].
  - intros trends s Hlen.
    destruct (split_last_two trends Hlen) as (older & a & b & ->).
    rewrite summary_stats_spec.
    repeat match goal with
      | |- rbind ?c _ = _ -> _ => destruct c; cbn [rbind]; [|discriminate]
      end.
    intros [= <-]. split; reflexivity.
  - intros trends. split.
    + apply skipn_last_length.
    + exists (firstn (length trends - 7) trends). apply skipn_last_suffix.
  - apply mean_int.
  - split; [reflexivity|]. split; [repeat constructor|].
    split; [vm_compute; reflexivity|].
    eexists. split; [vm_compute; reflexivity|reflexivity].
Qed.

Lemma averages_over_last_seven_witness :
  (2 <= length sample_history)%nat /\
  exists s,
    Trends.summary_stats (VList sample_history) = Ok s /\
    mean "quality_score" (last_n 7 sample_history) = Ok (Trends.avg_quality s) /\
    Trends.avg_quality s = VFloat 58.
Proof.
  split; [simpl; lia|].
  destruct (Trends.summary_stats (VList sample_history)) as [s|] eqn:Hs;
    [|vm_compute in Hs; discriminate].
  exists s. split; [reflexivity|].
  destruct (proj1 averages_over_last_seven sample_history s) as [_ Hq];
    [simpl; lia|exact Hs|].
  split; [exact Hq|].
  vm_compute in Hs. injection Hs as <-. reflexivity.
Defined.

(** ** The recommendations *)



Section FixFlaky.
Context `{Runtime}.

Lemma fix_flaky_line_other n :
  Trends.fix_flaky_line n <> Trends.low_coverage_line /\
  Trends.fix_flaky_line n <> Trends.low_quality_line /\
  Trends.fix_flaky_line n <> Trends.coverage_decline_line /\
  Trends.fix_flaky_line n <> Trends.quality_decline_line.
Proof.
  unfold Trends.fix_flaky_line, Trends.low_coverage_line,
    Trends.low_quality_line, Trends.coverage_decline_line,
    Trends.quality_decline_line.
  repeat split; simpl; discriminate.
Qed.

Lemma in_when (cond : bool) (line x : string) :
  In x (Trends.when cond line) <-> cond = true /\ x = line.
Proof.
  destruct cond; simpl; split; try tauto.
  - intros [<-|[]]. auto.
  - intros [_ ->]. auto.
  - intros [[=] _].
Qed.




End FixFlaky.







(** ** The output directory *)














Section OutputDirectory.
Context `{Runtime}.
Variable datetime : Type.
Variable fromisoformat : string -> option datetime.
Variable figure_image : Trends.figure datetime -> string.

Let visualize := Trends.visualize_trends datetime fromisoformat figure_image.



End OutputDirectory.



(** ** The missing plotting library *)

(** C1, what the code does: run as a script where matplotlib is not
    installed, the file raises [ImportError] at its import lines, before
    the [__main__] block and its [try] are reached.  Nothing is printed, no
    directory is made and no summary is written, whatever the arguments. *)
Theorem script_without_matplotlib `{Runtime} (datetime : Type)
    (fromisoformat : string -> option datetime)
    (figure_image : Trends.figure datetime -> string)
    (argv : list string) (w : world) :
  Trends.script datetime fromisoformat figure_image false argv w =
    (Raise ImportError, w) /\
  Trends.script datetime fromisoformat figure_image false
    ["visualize_test_trends.py"; "history.json"] sample_world =
    (Raise ImportError, sample_world).
Proof. split; reflexivity. Qed.

(** * Further properties of the dashboard *)

(** X1: on a number [get_score_color] never raises and returns one of the
    three colors, the bad one for NaN; on anything that is not a number it
    raises [TypeError]. *)
Theorem get_score_color_total (score : value) :
  (forall x, as_num score = Some x ->
     exists c, Dashboard.get_score_color score = Ok c /\
               In c ["#4caf50"; "#ff9800"; "#f44336"]) /\
  (as_num score = Some XNaN -> Dashboard.get_score_color score = Ok "#f44336") /\
  (as_num score = None -> Dashboard.get_score_color score = Raise TypeError).
Proof.
  split; [|split].
  - intros x Hx. rewrite (get_score_color_num _ _ Hx).
    destruct (xle (XFin (inject_Z 80)) x); [eexists; split; [reflexivity|simpl; auto]|].
    destruct (xle (XFin (inject_Z 60)) x); eexists; split; try reflexivity; simpl; auto.
  - intros Hx. rewrite (get_score_color_num _ _ Hx). reflexivity.
  - intros Hx. unfold Dashboard.get_score_color, py_ge, py_cmp. rewrite Hx. reflexivity.
Qed.

Lemma get_score_color_total_witness :
  as_num (VFloat nan) = Some XNaN /\
  Dashboard.get_score_color (VFloat nan) = Ok "#f44336" /\
  as_num (VStr "high") = None /\
  Dashboard.get_score_color (VStr "high") = Raise TypeError.
Proof.
  split; [vm_compute; reflexivity|].
  split; [apply (proj1 (proj2 (get_score_color_total (VFloat nan)))); vm_compute; reflexivity|].
  split; [reflexivity|].
  apply (proj2 (proj2 (get_score_color_total (VStr "high")))). reflexivity.
Defined.

(** X2: [get_flaky_class] gives "warning" to every integer count other
    than 0 that is at most 2, the negative ones included; what is not a
    number is not equal to 0 and cannot be compared with 2, so it raises
    [TypeError]. *)
Theorem get_flaky_class_edges :
  (forall count : Z, count < 0 ->
     Dashboard.get_flaky_class (VInt count) = Ok "warning") /\
  (forall count : value, as_num count = None ->
     Dashboard.get_flaky_class count = Raise TypeError) /\
  Dashboard.get_flaky_class (VBool false) = Ok "success" /\
  Dashboard.get_flaky_class (VFloat 2.5) = Ok "error".
Proof.
  split; [|split; [|split; vm_compute; reflexivity]].
  - intros count Hneg.
    unfold Dashboard.get_flaky_class, py_eq_int, py_le, py_cmp. cbn [as_num].
    rewrite xeq_int. destruct (Z.eqb_spec count 0); [lia|].
    cbn [rbind]. rewrite xle_int. destruct (Z.leb_spec count 2); [reflexivity|lia].
  - intros count Hn. unfold Dashboard.get_flaky_class, py_eq_int, py_le, py_cmp.
    rewrite Hn. reflexivity.
Qed.

Lemma get_flaky_class_edges_witness :
  Dashboard.get_flaky_class (VInt (-1)) = Ok "warning" /\
  Dashboard.get_flaky_class VNone = Raise TypeError.
Proof.
  split.
  - apply (proj1 get_flaky_class_edges). lia.
  - apply (proj1 (proj2 get_flaky_class_edges)). reflexivity.
Defined.

(** X3: [generate_test_type_rows] needs all five count keys.  It raises
    [KeyError] for the first one, in the order of the table, that the
    object lacks; when none is missing it returns the five rows in that
    order, whatever the values are. *)
Theorem test_type_rows_keys `{Runtime} (d : gmap string value) :
  Dashboard.generate_test_type_rows (VDict d) =
    match first_missing d (map snd test_type_keys) with
    | Some k => Raise (KeyError k)
    | None =>
        Ok (str_join
              (map (fun '(label, key) =>
                      Dashboard.test_type_row label (point_field key (VDict d)))
                   test_type_keys))
    end.
Proof.
  unfold Dashboard.generate_test_type_rows, first_missing, py_item. simpl.
  destruct (d !! "unit_test_files"); [|reflexivity].
  destruct (d !! "integration_test_files"); [|reflexivity].
  destruct (d !! "e2e_test_files"); [|reflexivity].
  destruct (d !! "benchmark_files"); [|reflexivity].
  destruct (d !! "example_files"); reflexivity.
Qed.

Lemma xlt_trans a b c : xlt a b = true -> xlt b c = true -> xlt a c = true.
Proof.
  destruct a as [|[]|p], b as [|[]|q], c as [|[]|r];
    try (cbv; congruence); try reflexivity.
  rewrite !xlt_fin. apply Qlt_trans.
Qed.

(** X4: the flaky-tests section is empty as soon as [flaky_test_count]
    equals 0, without looking at [flaky_tests]; otherwise it needs
    [flaky_tests] and holds one row for each of its first ten entries. *)
Theorem flaky_section_rules `{Runtime} (d : gmap string value) :
  (d !! "flaky_test_count" = None ->
   Dashboard.generate_flaky_tests_section (VDict d) =
     Raise (KeyError "flaky_test_count")) /\
  (forall c, d !! "flaky_test_count" = Some c -> py_eq_int c 0 = true ->
     Dashboard.generate_flaky_tests_section (VDict d) = Ok "") /\
  (forall c, d !! "flaky_test_count" = Some c -> py_eq_int c 0 = false ->
     d !! "flaky_tests" = None ->
     Dashboard.generate_flaky_tests_section (VDict d) =
       Raise (KeyError "flaky_tests")) /\
  (forall c tests html,
     d !! "flaky_test_count" = Some c -> py_eq_int c 0 = false ->
     d !! "flaky_tests" = Some (VList tests) ->
     Dashboard.generate_flaky_tests_section (VDict d) = Ok html ->
     exists rows,
       Forall2 (fun t row => Dashboard.flaky_test_row t = Ok row)
               (firstn 10 tests) rows /\
       (length rows <= 10)%nat /\
       html = Dashboard.table_open "Flaky Tests" ["Test"; "Package"] +:+
              str_join rows +:+ Dashboard.table_close).
Proof.
  unfold Dashboard.generate_flaky_tests_section. cbn [py_item].
  split; [|split; [|split]].
  - intros ->. reflexivity.
  - intros c -> Hz. cbn [rbind]. rewrite Hz. reflexivity.
  - intros c -> Hz ->. cbn [rbind]. rewrite Hz. reflexivity.
  - intros c tests html -> Hz ->. cbn [rbind]. rewrite Hz.
    cbn [py_slice_to py_iter rbind].
    change 10 with (Z.of_nat 10). rewrite slice_to_first.
    destruct (mapM Dashboard.flaky_test_row (firstn 10 tests)) as [rows|] eqn:Hrows;
      [|discriminate].
    cbn [rbind]. intros [= <-]. exists rows. split; [now apply mapM_Forall2|].
    split; [|reflexivity].
    apply mapM_length in Hrows. rewrite Hrows, length_firstn. lia.
Qed.

Lemma flaky_section_rules_witness :
  ({[ "flaky_test_count" := VInt 0 ]} : gmap string value) !! "flaky_test_count"
    = Some (VInt 0) /\
  ({[ "flaky_test_count" := VInt 0 ]} : gmap string value) !! "flaky_tests" = None /\
  @Dashboard.generate_flaky_tests_section sample_runtime
    (VDict {[ "flaky_test_count" := VInt 0 ]}) = Ok "".
Proof.
  split; [reflexivity|]. split; [reflexivity|].
  apply (proj1 (proj2 (@flaky_section_rules sample_runtime
                         {[ "flaky_test_count" := VInt 0 ]})) (VInt 0));
    reflexivity.
Defined.

(** X5: the slowest-tests section is empty when [slowest_tests] is absent
    or empty; otherwise it holds one row for each of the first ten tests.
    The key is read with a default, so its absence is no error. *)
Theorem slow_section_rules `{Runtime} (d : gmap string value) :
  (d !! "slowest_tests" = None ->
   Dashboard.generate_slow_tests_section (VDict d) = Ok "") /\
  (forall v, d !! "slowest_tests" = Some v -> truthy v = false ->
     Dashboard.generate_slow_tests_section (VDict d) = Ok "") /\
  (forall t tests html,
     d !! "slowest_tests" = Some (VList (t :: tests)) ->
     Dashboard.generate_slow_tests_section (VDict d) = Ok html ->
     exists rows,
       Forall2 (fun t row => Dashboard.slow_test_row t = Ok row)
               (firstn 10 (t :: tests)) rows /\
       (length rows <= 10)%nat /\
       html = Dashboard.table_open "Slowest Tests" ["Test"; "Package"; "Duration"]
              +:+ str_join rows +:+ Dashboard.table_close).
Proof.
  unfold Dashboard.generate_slow_tests_section. cbn [py_get].
  split; [|split].
  - intros ->. reflexivity.
  - intros v -> Hv. cbn [rbind]. rewrite Hv. reflexivity.
  - intros t tests html ->. cbn [rbind truthy negb py_slice_to py_iter].
    change 10 with (Z.of_nat 10). rewrite slice_to_first.
    destruct (mapM Dashboard.slow_test_row (firstn 10 (t :: tests))) as [rows|] eqn:Hrows;
      [|discriminate].
    cbn [rbind]. intros [= <-]. exists rows. split; [now apply mapM_Forall2|].
    split; [|reflexivity].
    apply mapM_length in Hrows. rewrite Hrows, length_firstn. lia.
Qed.

Lemma slow_section_rules_witness :
  (∅ : gmap string value) !! "slowest_tests" = None /\
  @Dashboard.generate_slow_tests_section sample_runtime (VDict ∅) = Ok "".
Proof.
  split; [reflexivity|].
  apply (proj1 (@slow_section_rules sample_runtime ∅)). reflexivity.
Defined.

(** X6: the color of a duration is bad above 1.0 second, warning above 0.5
    up to 1.0, good otherwise; both bounds are strict, so exactly 1.0 is
    warning and exactly 0.5 is good, and NaN, greater than nothing, is
    good. *)
Theorem duration_color_thresholds (duration : value) :
  (py_gt duration (VFloat 1) = Ok true ->
   Dashboard.duration_color duration = Ok "#f44336") /\
  (py_gt duration (VFloat 1) = Ok false -> py_gt duration (VFloat 0.5) = Ok true ->
   Dashboard.duration_color duration = Ok "#ff9800") /\
  (py_gt duration (VFloat 0.5) = Ok false ->
   Dashboard.duration_color duration = Ok "#4caf50") /\
  Dashboard.duration_color (VFloat 1) = Ok "#ff9800" /\
  Dashboard.duration_color (VFloat 0.5) = Ok "#4caf50" /\
  Dashboard.duration_color (VFloat nan) = Ok "#4caf50".
Proof.
  split; [|split; [|split; [|repeat split; vm_compute; reflexivity]]].
  - intros Hs. unfold Dashboard.duration_color. rewrite Hs. reflexivity.
  - intros Hs Hm. unfold Dashboard.duration_color. rewrite Hs. cbn [rbind].
    rewrite Hm. reflexivity.
  - intros Hm. unfold Dashboard.duration_color.
    destruct (py_gt duration (VFloat 1)) as [[]|] eqn:Hs; cbn [rbind].
    + exfalso.
      apply py_cmp_num in Hs as (x & y & Hx & Hy & Hs).
      apply py_cmp_num in Hm as (x' & z & Hx' & Hz & Hm).
      rewrite Hx in Hx'. injection Hx' as <-.
      injection Hy as <-. injection Hz as <-.
      assert (Hhalf : xlt (float_val 0.5) (float_val 1) = true)
        by (vm_compute; reflexivity).
      symmetry in Hs. rewrite (xlt_trans _ _ _ Hhalf Hs) in Hm. discriminate.
    + rewrite Hm. reflexivity.
    + unfold py_gt, py_cmp in *.
      destruct (as_num duration); [|discriminate].
      cbn [as_num] in *. discriminate.
Qed.

Lemma duration_color_thresholds_witness :
  py_gt (VFloat 0.75) (VFloat 1) = Ok false /\
  py_gt (VFloat 0.75) (VFloat 0.5) = Ok true /\
  Dashboard.duration_color (VFloat 0.75) = Ok "#ff9800".
Proof.
  assert (H1 : py_gt (VFloat 0.75) (VFloat 1) = Ok false) by (vm_compute; reflexivity).
  assert (H2 : py_gt (VFloat 0.75) (VFloat 0.5) = Ok true) by (vm_compute; reflexivity).
  split; [exact H1|]. split; [exact H2|].
  exact (proj1 (proj2 (duration_color_thresholds (VFloat 0.75))) H1 H2).
Defined.

Lemma prefix_app (old s : string) : String.prefix old (old +:+ s) = true.
Proof.
  induction old as [|c old IH]; simpl; [now destruct s|].
  destruct (ascii_dec c c); [exact IH|congruence].
Qed.

Lemma replace_from_skip (old new t s : string) :
  replace_from old new (String.length t) (t +:+ s) = replace_from old new 0 s.
Proof.
  induction t as [|c t IH]; simpl; [reflexivity|exact IH].
Qed.

Lemma replace_from_cons (old new : string) c s :
  replace_from old new 0 (String c s) =
    if String.prefix old (String c s)
    then new +:+ replace_from old new (String.length old - 1) s
    else String c (replace_from old new 0 s).
Proof. reflexivity. Qed.

(** X7: [s.replace(old, new)] with a non-empty [old] replaces every
    occurrence, wherever it stands: a string that starts with [old] gives
    [new] followed by the replacement of what follows it, and a string that
    does not keeps its first character.  So the repository prefix is taken
    out of a package name in the middle as well as at the front. *)
Theorem str_replace_all (old new : string) :
  old <> "" ->
  (forall s, str_replace old new (old +:+ s) = new +:+ str_replace old new s) /\
  (forall c s, String.prefix old (String c s) = false ->
     str_replace old new (String c s) = String c (str_replace old new s)) /\
  str_replace old new "" = "".
Proof.
  intros Hold. split; [|split; [|reflexivity]].
  - intros s. destruct old as [|c old]; [congruence|].
    unfold str_replace.
    change (String c old +:+ s) with (String c (old +:+ s)).
    rewrite replace_from_cons.
    change (String c (old +:+ s)) with (String c old +:+ s).
    rewrite prefix_app. f_equal.
    cbn [String.length]. rewrite Nat.sub_succ, Nat.sub_0_r.
    apply replace_from_skip.
  - intros c s Hp. unfold str_replace. rewrite replace_from_cons, Hp. reflexivity.
Qed.

Lemma str_replace_all_witness :
  Dashboard.repo_prefix <> "" /\
  str_replace Dashboard.repo_prefix ""
    (Dashboard.repo_prefix +:+ "internal/hook") = "internal/hook" /\
  str_replace Dashboard.repo_prefix ""
    "vendor/github.com/bebsworthy/qualhook/internal/hook" = "vendor/internal/hook".
Proof.
  assert (Hne : Dashboard.repo_prefix <> "") by discriminate.
  split; [exact Hne|]. split; [|vm_compute; reflexivity].
  rewrite (proj1 (str_replace_all Dashboard.repo_prefix "" Hne)).
  vm_compute. reflexivity.
Defined.

Section DashboardRun.
Context `{Runtime}.
Variable page_text : Dashboard.page -> string.


(** X9: called with any number of arguments other than three, the
    dashboard script prints its usage line and exits with status 1 without
    touching a file. *)
Theorem dashboard_main_usage (argv : list string) (w : world) :
  length argv <> 4%nat ->
  Dashboard.main page_text argv w =
    (Raise (SystemExit 1),
     {| w_dirs := w_dirs w; w_files := w_files w;
        w_stdout := (w_stdout w ++
          ["Usage: generate_test_dashboard.py <metrics_json> <trend_json> <output_html>"])%list;
        w_now := w_now w |}).
Proof.
  intros Hlen. destruct argv as [|a0 [|a1 [|a2 [|a3 [|a4 rest]]]]];
    simpl in Hlen; try congruence; reflexivity.
Qed.

End DashboardRun.


Lemma dashboard_main_usage_witness :
  length ["generate_test_dashboard.py"; "metrics.json"] <> 4%nat /\
  fst (@Dashboard.main sample_runtime (fun _ => "page")
         ["generate_test_dashboard.py"; "metrics.json"] sample_world) =
    Raise (SystemExit 1).
Proof.
  assert (Hlen : length ["generate_test_dashboard.py"; "metrics.json"] <> 4%nat)
    by (simpl; lia).
  split; [exact Hlen|].
  rewrite (@dashboard_main_usage sample_runtime (fun _ => "page") _ sample_world Hlen).
  reflexivity.
Defined.

Lemma mapM_app_raise {A B} (f : A -> result B) (pre post : list A) (x : A)
    (r : list B) (e : exn) :
  mapM f pre = Ok r -> f x = Raise e -> mapM f (pre ++ x :: post) = Raise e.
Proof.
  revert r. induction pre as [|a pre IH]; intros r; simpl.
  - intros _ ->. reflexivity.
  - destruct (f a); [|discriminate]. cbn [rbind].
    destruct (mapM f pre) as [r'|] eqn:Hpre; [|discriminate].
    intros _ Hx. rewrite (IH r' eq_refl Hx). reflexivity.
Qed.

Lemma last_n_app {A} (n : nat) (older recent : list A) :
  length recent = n -> last_n n (older ++ recent) = recent.
Proof.
  intros Hlen. unfold last_n. rewrite length_app, Hlen.
  replace (length older + n - n)%nat with (length older + 0)%nat by lia.
  rewrite skipn_app, Nat.add_0_r, skipn_all.
  replace (length older - length older)%nat with 0%nat by lia. reflexivity.
Qed.

(** X10: the charts look at the last ten points only.  What stands before
    them in the history does not matter, well-formed or not; an empty
    history gives three empty lists; and a point among the last ten without
    [timestamp] stops the run with [KeyError], while one without [coverage]
    would count as 0. *)
Theorem trend_chart_data_window :
  Dashboard.trend_chart_data (VList []) =
    Ok {| Dashboard.trend_labels := []; Dashboard.coverage_trend := [];
          Dashboard.quality_trend := [] |} /\
  (forall older recent : list value,
     length recent = 10%nat ->
     Dashboard.trend_chart_data (VList (older ++ recent)) =
     Dashboard.trend_chart_data (VList recent)) /\
  (forall (trends pre post : list value) (d : gmap string value),
     last_n 10 trends = (pre ++ VDict d :: post)%list ->
     Forall (fun t => is_trend_point t = true) pre ->
     d !! "timestamp" = None ->
     Dashboard.trend_chart_data (VList trends) = Raise (KeyError "timestamp")).
Proof.
  split; [reflexivity|split].
  - intros older recent Hlen. unfold Dashboard.trend_chart_data.
    rewrite !last_points_list, last_n_app by exact Hlen.
    unfold last_n. rewrite Hlen. reflexivity.
  - intros trends pre post d Hwin Hpre Hd. unfold Dashboard.trend_chart_data.
    rewrite last_points_list, Hwin. cbn [rbind].
    rewrite (mapM_app_raise _ pre post (VDict d)
               (map (fun t => VStr (first_chars 10 (point_timestamp t))) pre)
               (KeyError "timestamp")).
    + reflexivity.
    + apply mapM_map. eapply Forall_impl; [exact Hpre|].
      intros t. apply trend_label_point.
    + unfold Dashboard.trend_label. simpl. rewrite Hd. reflexivity.
Qed.

Lemma trend_chart_data_window_witness :
  length (last_n 10 sample_history) = 10%nat /\
  Dashboard.trend_chart_data (VList ([VNone; VStr "junk"] ++ last_n 10 sample_history)) =
  Dashboard.trend_chart_data (VList (last_n 10 sample_history)) /\
  Dashboard.trend_chart_data (VList [VDict {[ "coverage" := VInt 50 ]}]) =
    Raise (KeyError "timestamp").
Proof.
  split; [reflexivity|]. split.
  - apply (proj1 (proj2 trend_chart_data_window)). reflexivity.
  - apply (proj2 (proj2 trend_chart_data_window)
             [VDict {[ "coverage" := VInt 50 ]}] [] [] {[ "coverage" := VInt 50 ]});
      [reflexivity|constructor|reflexivity].
Defined.

Section Rules.
Context `{Runtime}.

Lemma fixed_lines_distinct :
  Trends.low_coverage_line <> Trends.low_quality_line /\
  Trends.low_coverage_line <> Trends.coverage_decline_line /\
  Trends.low_coverage_line <> Trends.quality_decline_line /\
  Trends.low_quality_line <> Trends.coverage_decline_line /\
  Trends.low_quality_line <> Trends.quality_decline_line /\
  Trends.coverage_decline_line <> Trends.quality_decline_line.
Proof. repeat split; intros E; vm_compute in E; discriminate. Qed.

(** X11: each of the four fixed recommendations is in the summary exactly
    when its rule holds, every bound being strict: average coverage below
    70, average quality below 60, coverage change below -5, quality change
    below -10.  The lines come in that order, the flaky one between the
    second and the third, and there are never more than five. *)
Theorem recommendation_rules (s : Trends.stats) (lines : list string) :
  Trends.recommendations s = Ok lines ->
  (In Trends.low_coverage_line lines <->
   py_lt (Trends.avg_coverage s) (VInt 70) = Ok true) /\
  (In Trends.low_quality_line lines <->
   py_lt (Trends.avg_quality s) (VInt 60) = Ok true) /\
  (In Trends.coverage_decline_line lines <->
   py_lt (Trends.coverage_trend s) (VInt (-5)) = Ok true) /\
  (In Trends.quality_decline_line lines <->
   py_lt (Trends.quality_trend s) (VInt (-10)) = Ok true) /\
  sublist lines
    [Trends.low_coverage_line; Trends.low_quality_line;
     Trends.fix_flaky_line (Trends.max_flaky s);
     Trends.coverage_decline_line; Trends.quality_decline_line] /\
  (length lines <= 5)%nat.
Proof.
  unfold Trends.recommendations.
  destruct (py_lt (Trends.avg_coverage s) (VInt 70)) as [c1|]; [|discriminate].
  destruct (py_lt (Trends.avg_quality s) (VInt 60)) as [c2|]; [|discriminate].
  destruct (py_gt (Trends.max_flaky s) (VInt 0)) as [c3|]; [|discriminate].
  destruct (py_lt (Trends.coverage_trend s) (VInt (-5))) as [c4|]; [|discriminate].
  destruct (py_lt (Trends.quality_trend s) (VInt (-10))) as [c5|]; [|discriminate].
  cbn [rbind]. intros [= <-].
  destruct fixed_lines_distinct as (D12 & D14 & D15 & D24 & D25 & D45).
  destruct (fix_flaky_line_other (Trends.max_flaky s)) as (F1 & F2 & F4 & F5).
  repeat split; try (intros [= ->]).
  all: rewrite ?in_app_iff, ?in_when.
  all: try tauto.
  all: try (intros Hin; decompose [or and] Hin; clear Hin; congruence).
  - destruct c1, c2, c3, c4, c5; simpl;
      repeat first [apply sublist_nil | apply sublist_skip | apply sublist_cons].
  - destruct c1, c2, c3, c4, c5; simpl; lia.
Qed.

End Rules.

Lemma recommendation_rules_witness :
  exists lines,
    @Trends.recommendations sample_runtime
      {| Trends.avg_coverage := VFloat 70; Trends.avg_quality := VFloat 59.9;
         Trends.max_flaky := VInt 0; Trends.coverage_trend := VInt (-5);
         Trends.quality_trend := VFloat (-10.5) |} = Ok lines /\
    ~ In Trends.low_coverage_line lines /\
    In Trends.low_quality_line lines /\
    ~ In Trends.coverage_decline_line lines /\
    In Trends.quality_decline_line lines.
Proof.
  set (s := {| Trends.avg_coverage := VFloat 70; Trends.avg_quality := VFloat 59.9;
               Trends.max_flaky := VInt 0; Trends.coverage_trend := VInt (-5);
               Trends.quality_trend := VFloat (-10.5) |}).
  destruct (@Trends.recommendations sample_runtime s) as [lines|] eqn:Hl;
    [|vm_compute in Hl; discriminate].
  exists lines. split; [reflexivity|].
  destruct (@recommendation_rules sample_runtime s lines Hl)
    as (R1 & R2 & R3 & R4 & _).
  split; [|split; [|split]].
  - rewrite R1. vm_compute. discriminate.
  - rewrite R2. vm_compute. reflexivity.
  - rewrite R3. vm_compute. discriminate.
  - rewrite R4. vm_compute. reflexivity.
Defined.

(** * Further properties of the trend visualizer *)


(** ** Paths *)










(** * Further properties of the trend visualizer *)

Section VisualizeRun.
Context `{Runtime}.
Variable datetime : Type.
Variable fromisoformat : string -> option datetime.
Variable figure_image : Trends.figure datetime -> string.

Let visualize := Trends.visualize_trends datetime fromisoformat figure_image.



(** X14: the arguments of the script.  Without a trend file it prints the
    usage line and exits with status 1, touching nothing else; without an
    output directory it uses [test_metrics/visualizations]; arguments after
    the output directory are ignored. *)
Theorem trends_main_arguments :
  (forall argv w,
     (length argv < 2)%nat ->
     Trends.main datetime fromisoformat figure_image argv w =
       (Raise (SystemExit 1),
        {| w_dirs := w_dirs w; w_files := w_files w;
           w_stdout := (w_stdout w ++
             ["Usage: visualize_test_trends.py <trend_file> [output_dir]"])%list;
           w_now := w_now w |})) /\
  (forall prog tf,
     Trends.main datetime fromisoformat figure_image [prog; tf] =
     Trends.main datetime fromisoformat figure_image
       [prog; tf; "test_metrics/visualizations"]) /\
  (forall prog tf od rest,
     Trends.main datetime fromisoformat figure_image (prog :: tf :: od :: rest) =
     Trends.main datetime fromisoformat figure_image [prog; tf; od]) /\
  (forall prog tf od rest w r w',
     visualize tf od w = (r, w') -> r <> Raise ImportError ->
     Trends.main datetime fromisoformat figure_image (prog :: tf :: od :: rest) w =
       (r, w')).
Proof.
  split; [|split; [|split]].
  - intros argv w Hlen. destruct argv as [|a0 [|a1 rest]]; simpl in Hlen;
      try lia; reflexivity.
  - reflexivity.
  - reflexivity.
  - intros prog tf od rest w r w' Hrun Hr. unfold Trends.main, try_except.
    fold visualize. rewrite Hrun. destruct r as [[]|e]; [reflexivity|].
    destruct e; try reflexivity. congruence.
Qed.

End VisualizeRun.


Lemma trends_main_arguments_witness :
  (length ["visualize_test_trends.py"] < 2)%nat /\
  fst (@Trends.main sample_runtime unit (fun _ => Some tt) (fun _ => "PNG")
         ["visualize_test_trends.py"] sample_world) = Raise (SystemExit 1) /\
  w_files (snd (@Trends.main sample_runtime unit (fun _ => Some tt) (fun _ => "PNG")
                  ["visualize_test_trends.py"] sample_world)) =
    w_files sample_world.
Proof.
  assert (Hlen : (length ["visualize_test_trends.py"] < 2)%nat) by (simpl; lia).
  split; [exact Hlen|].
  rewrite (proj1 (@trends_main_arguments sample_runtime unit (fun _ => Some tt)
                    (fun _ => "PNG")) _ sample_world Hlen).
  split; reflexivity.
Defined.
